(** * Collider.svelte: pose synchronisation and parameter application

    A shallow embedding of
    [packages/rapier/src/lib/components/Colliders/Collider.svelte].

    The component is glue between three systems.  Each of them is given a
    small executable model here:

    - three.js ([Vector3], [Quaternion], [Object3D]): the vector and
      quaternion operations the component calls, over exact rational
      scalars, and scene nodes that carry the world transform three.js
      reports for them together with their parent chain;
    - the physics engine (Rapier): a store of colliders in which every
      setter records the value it was handed, two shared registries, and a
      chronological log of every call that reaches the engine or a registry;
    - the component framework (Svelte, threlte): the lifecycle events that
      run the component's handlers.

    The handlers themselves ([onMount], [reactive_block],
    [useFrame_callback], [onDestroy]) follow the source line by line, in a
    state monad over the engine model. *)

From Stdlib Require Import QArith Qcanon.
From stdpp Require Import base option list gmap.

Set Default Proof Using "Type".
#[local] Set Warnings "-register-all".

(** ** Scalars

    A JavaScript [number] is modelled as an exact rational.  Rounding,
    infinities and NaN are outside the model. *)

Abbreviation number := Qc (only parsing).

(** JavaScript truthiness of a number: [0] is falsy, everything else (in
    this model) is truthy. *)
Definition truthy (n : number) : bool :=
  if Qc_eq_dec n 0%Qc then false else true.

(** [a ?? b] *)
Definition nullish {A : Type} (a : option A) (b : A) : A :=
  match a with
  | Some v => v
  | None => b
  end.

Infix "??" := nullish (at level 45, left associativity).

(** ** three.js *)

Record Vector3 : Type := mkVector3 { vx : number; vy : number; vz : number }.

Record Quaternion : Type :=
  mkQuaternion { qx : number; qy : number; qz : number; qw : number }.

(** [new Vector3()] *)
Definition Vector3_new : Vector3 := mkVector3 0%Qc 0%Qc 0%Qc.

(** [a.sub(v)] *)
Definition Vector3_sub (a v : Vector3) : Vector3 :=
  mkVector3 (vx a - vx v)%Qc (vy a - vy v)%Qc (vz a - vz v)%Qc.

(** [new Quaternion()] *)
Definition Quaternion_new : Quaternion := mkQuaternion 0%Qc 0%Qc 0%Qc 1%Qc.

(** [q.invert()]: three.js inverts by conjugation. *)
Definition Quaternion_invert (q : Quaternion) : Quaternion :=
  mkQuaternion (qx q * - (1))%Qc (qy q * - (1))%Qc (qz q * - (1))%Qc (qw q).

(** [multiplyQuaternions(a, b)] *)
Definition Quaternion_multiplyQuaternions (a b : Quaternion) : Quaternion :=
  mkQuaternion
    (qx a * qw b + qw a * qx b + qy a * qz b - qz a * qy b)%Qc
    (qy a * qw b + qw a * qy b + qz a * qx b - qx a * qz b)%Qc
    (qz a * qw b + qw a * qz b + qx a * qy b - qy a * qx b)%Qc
    (qw a * qw b - qx a * qx b - qy a * qy b - qz a * qz b)%Qc.

(** [this.premultiply(q)] is [multiplyQuaternions(q, this)]. *)
Definition Quaternion_premultiply (this q : Quaternion) : Quaternion :=
  Quaternion_multiplyQuaternions q this.

(** A scene node.  The three [matrixWorld_*] fields are the decomposition of
    the node's world matrix, which is what [getWorldPosition],
    [getWorldQuaternion] and [getWorldScale] return; [userData_isRigidBody]
    is the flag the component inspects on ancestors. *)
Inductive Object3D : Type := mkObject3D {
  matrixWorld_position : Vector3;
  matrixWorld_quaternion : Quaternion;
  matrixWorld_scale : Vector3;
  userData_isRigidBody : bool;
  parent : option Object3D
}.

Definition Object3D_getWorldPosition (o : Object3D) : Vector3 :=
  matrixWorld_position o.

Definition Object3D_getWorldQuaternion (o : Object3D) : Quaternion :=
  matrixWorld_quaternion o.

Definition Object3D_getWorldScale (o : Object3D) : Vector3 :=
  matrixWorld_scale o.

(** [o.traverseAncestors(callback)]: the callback is run on the parent, then
    on the parent's parent, and so on up to the root.  The callback mutates
    captured variables; their contents are the threaded state [s]. *)
Fixpoint traverseAncestors {S : Type}
    (o : Object3D) (callback : Object3D -> S -> S) (s : S) : S :=
  match parent o with
  | None => s
  | Some p => traverseAncestors p callback (callback p s)
  end.

(** The ancestors of a node, nearest first. *)
Fixpoint ancestors (o : Object3D) : list Object3D :=
  match parent o with
  | None => []
  | Some p => p :: ancestors p
  end.

(** Modelled from the spec: [getWorldPosition] and [getWorldQuaternion] of
    [lib/getWorldTransforms] are not part of the source at hand; the spec
    has them return "the node's current world position and world rotation". *)
Definition getWorldPosition (o : Object3D) : Vector3 :=
  Object3D_getWorldPosition o.

(** Modelled from the spec: the companion helper of [getWorldPosition] in
    [lib/getWorldTransforms], returning the node's current world rotation. *)
Definition getWorldQuaternion (o : Object3D) : Quaternion :=
  Object3D_getWorldQuaternion o.

(** ** Rapier *)

Module CoefficientCombineRule.
Inductive t : Type :=
  | Average
  | Min
  | Multiply
  | Max.
End CoefficientCombineRule.

Module ActiveCollisionTypes.
Inductive t : Type :=
  | DYNAMIC_DYNAMIC
  | DYNAMIC_KINEMATIC
  | DYNAMIC_FIXED
  | KINEMATIC_KINEMATIC
  | KINEMATIC_FIXED
  | FIXED_FIXED
  | DEFAULT
  | ALL.
End ActiveCollisionTypes.

(** The shapes a collider descriptor can be built for. *)
Inductive Shape : Type :=
  | ball | capsule | segment | triangle | roundTriangle | polyline
  | trimesh | cuboid | roundCuboid | heightfield | cylinder | roundCylinder
  | cone | roundCone | convexHull | convexMesh | roundConvexHull
  | roundConvexMesh.

(** A collider is known to the engine and to the registries by its handle. *)
Definition Collider : Type := nat.

(** The parent body handed down by [useRigidBody]. *)
Record RigidBody : Type := mkRigidBody {
  rigidBody_handle : nat;
  rigidBody_userData_hasEventListeners : option bool
}.

(** What the engine holds for one collider.  Every field of the pose and
    of the material is the argument of the most recent call of the
    corresponding setter; [None] means the setter was never called and the
    engine default is in force. *)
Module Rapier.

Record Pose : Type := mkPose {
  translation : option Vector3;
  rotation : option Quaternion;
  translationWrtParent : option Vector3;
  rotationWrtParent : option Quaternion
}.

Record Material : Type := mkMaterial {
  activeEvents : option bool;
  activeCollisionTypes : option ActiveCollisionTypes.t;
  restitution : option number;
  restitutionCombineRule : option CoefficientCombineRule.t;
  friction : option number;
  frictionCombineRule : option CoefficientCombineRule.t;
  sensor : option bool;
  contactForceEventThreshold : option number
}.

(** The engine keeps one mass configuration per collider: a density, a
    mass, or full mass properties.  Each of the three mass setters replaces
    it, so the setter called last decides. *)
Inductive MassConfig : Type :=
  | ByDensity (density : number)
  | ByMass (mass : number)
  | ByMassProperties (mass : number)
      (centerOfMass principalAngularInertia : Vector3)
      (angularInertiaLocalFrame : Quaternion).

Record ColliderState : Type := mkColliderState {
  attachedTo : option RigidBody;
  pose : Pose;
  material : Material;
  massConfig : option MassConfig
}.

(** A collider as [createCollider] leaves it: no setter called yet. *)
Definition ColliderState_new (body : option RigidBody) : ColliderState :=
  mkColliderState body
    (mkPose None None None None)
    (mkMaterial None None None None None None None None)
    None.

Definition with_pose (f : Pose -> Pose) (c : ColliderState)
    : ColliderState :=
  mkColliderState (attachedTo c) (f (pose c)) (material c) (massConfig c).

Definition with_material (f : Material -> Material) (c : ColliderState)
    : ColliderState :=
  mkColliderState (attachedTo c) (pose c) (f (material c)) (massConfig c).

Definition with_massConfig (m : MassConfig) (c : ColliderState)
    : ColliderState :=
  mkColliderState (attachedTo c) (pose c) (material c) (Some m).

End Rapier.

Section Component.

(** The shape arguments and the position and rotation notations of the
    component framework are opaque to this component, and so are the three
    helpers that convert them: [scaleColliderArgs], [positionToVector3]
    and [rotationToQuaternion] live in [lib/], outside the source at
    hand.  They are parameters of the development. *)
Context {Args Position Rotation : Type}.
Context (scaleColliderArgs : Shape -> Args -> Vector3 -> Args).
Context (positionToVector3 : Position -> Vector3).
Context (rotationToQuaternion : Rotation -> Quaternion).

(** [ColliderDesc[shape](...scaledArgs)] *)
Record ColliderDesc : Type := mkColliderDesc {
  desc_shape : Shape;
  desc_args : Args
}.

(** Every call that leaves the component: into the physics world, into a
    collider, or into one of the two shared registries. *)
Inductive Call : Type :=
  | Call_createCollider (desc : ColliderDesc) (body : option RigidBody)
  | Call_addColliderToContext (c : Collider) (o : Object3D)
  | Call_registerColliders (cs : list Collider)
  | Call_setTranslationWrtParent (c : Collider) (v : Vector3)
  | Call_setRotationWrtParent (c : Collider) (q : Quaternion)
  | Call_setTranslation (c : Collider) (v : Vector3)
  | Call_setRotation (c : Collider) (q : Quaternion)
  | Call_setActiveEvents (c : Collider) (b : bool)
  | Call_setActiveCollisionTypes (c : Collider) (t : ActiveCollisionTypes.t)
  | Call_setRestitution (c : Collider) (n : number)
  | Call_setContactForceEventThreshold (c : Collider) (n : number)
  | Call_setRestitutionCombineRule (c : Collider)
      (r : CoefficientCombineRule.t)
  | Call_setFriction (c : Collider) (n : number)
  | Call_setFrictionCombineRule (c : Collider) (r : CoefficientCombineRule.t)
  | Call_setSensor (c : Collider) (b : bool)
  | Call_setDensity (c : Collider) (n : number)
  | Call_setMass (c : Collider) (n : number)
  | Call_setMassProperties (c : Collider) (m : number)
      (centerOfMass principalAngularInertia : Vector3)
      (angularInertiaLocalFrame : Quaternion)
  | Call_removeColliderFromContext (c : Collider)
  | Call_removeColliders (cs : list Collider)
  | Call_removeCollider (c : Collider) (wakeUp : bool).

(** The state outside the component: the colliders of the physics world,
    the world-context registry of [useRapier], the collision-group
    registry of [useCollisionGroups], and the log of calls, oldest
    first. *)
Record World : Type := mkWorld {
  world_colliders : gmap Collider Rapier.ColliderState;
  context_colliders : gset Collider;
  collisionGroups_colliders : gset Collider;
  calls : list Call
}.

(** *** The monad of the handlers: state passing over [World] *)

Definition M (A : Type) : Type := World -> A * World.

#[global] Instance M_ret : MRet M := fun A a w => (a, w).

#[global] Instance M_bind : MBind M :=
  fun A B f m w => let '(a, w') := m w in f a w'.

Definition exec {A : Type} (m : M A) (w : World) : World := (m w).2.

(** Appends one call to the log. *)
Definition log (c : Call) : M unit :=
  fun w =>
    (tt, mkWorld (world_colliders w) (context_colliders w)
           (collisionGroups_colliders w) (calls w ++ [c])).

(** Applies a setter to the collider [c] of the physics world.  A handle
    the world does not hold is left alone. *)
Definition update (c : Collider)
    (f : Rapier.ColliderState -> Rapier.ColliderState) : M unit :=
  fun w =>
    (tt, mkWorld (alter f c (world_colliders w)) (context_colliders w)
           (collisionGroups_colliders w) (calls w)).

(** *** The physics world and the registries *)

(** [world.createCollider(desc, body)]: the world hands out a handle it does
    not hold yet. *)
Definition world_createCollider (desc : ColliderDesc)
    (body : option RigidBody) : M Collider :=
  fun w =>
    let c := fresh (dom (world_colliders w)) in
    (c, mkWorld (<[c := Rapier.ColliderState_new body]> (world_colliders w))
          (context_colliders w) (collisionGroups_colliders w)
          (calls w ++ [Call_createCollider desc body])).

(** [world.removeCollider(collider, wakeUp)] *)
Definition world_removeCollider (c : Collider) (wakeUp : bool) : M unit :=
  fun w =>
    (tt, mkWorld (delete c (world_colliders w)) (context_colliders w)
           (collisionGroups_colliders w)
           (calls w ++ [Call_removeCollider c wakeUp])).

(** Modelled from the spec: [addColliderToContext] of [useRapier] is not part
    of the source at hand; the spec has it register the collider in "a
    shared world-context registry" used for "cross-component lookup of
    colliders by identity". *)
Definition rapierContext_addColliderToContext (c : Collider) (o : Object3D)
    : M unit :=
  fun w =>
    (tt, mkWorld (world_colliders w) ({[c]} ∪ context_colliders w)
           (collisionGroups_colliders w)
           (calls w ++ [Call_addColliderToContext c o])).

(** Modelled from the spec: [removeColliderFromContext] of [useRapier],
    which the spec has "remove the collider from the shared world-context
    registry". *)
Definition rapierContext_removeColliderFromContext (c : Collider) : M unit :=
  fun w =>
    (tt, mkWorld (world_colliders w) (context_colliders w ∖ {[c]})
           (collisionGroups_colliders w)
           (calls w ++ [Call_removeColliderFromContext c])).

(** Modelled from the spec: [registerColliders] of [useCollisionGroups],
    which the spec has register the colliders "for collision-group
    membership" in "a shared collision-group registry". *)
Definition collisionGroups_registerColliders (cs : list Collider) : M unit :=
  fun w =>
    (tt, mkWorld (world_colliders w) (context_colliders w)
           (list_to_set cs ∪ collisionGroups_colliders w)
           (calls w ++ [Call_registerColliders cs])).

(** Modelled from the spec: [removeColliders] of [useCollisionGroups], which
    the spec has "remove it from the collision-group registry". *)
Definition collisionGroups_removeColliders (cs : list Collider) : M unit :=
  fun w =>
    (tt, mkWorld (world_colliders w) (context_colliders w)
           (collisionGroups_colliders w ∖ list_to_set cs)
           (calls w ++ [Call_removeColliders cs])).

(** *** The setters of a collider *)

(** A setter call reaches the engine, which then holds the new value. *)
Definition setter (call : Call) (c : Collider)
    (f : Rapier.ColliderState -> Rapier.ColliderState) : M unit :=
  log call ;; update c f.

Definition setTranslation (c : Collider) (v : Vector3) : M unit :=
  setter (Call_setTranslation c v) c
    (Rapier.with_pose (fun p =>
    Rapier.mkPose (Some v) (Rapier.rotation p)
      (Rapier.translationWrtParent p) (Rapier.rotationWrtParent p))).

Definition setRotation (c : Collider) (q : Quaternion) : M unit :=
  setter (Call_setRotation c q) c
    (Rapier.with_pose (fun p =>
    Rapier.mkPose (Rapier.translation p) (Some q)
      (Rapier.translationWrtParent p) (Rapier.rotationWrtParent p))).

Definition setTranslationWrtParent (c : Collider) (v : Vector3) : M unit :=
  setter (Call_setTranslationWrtParent c v) c
    (Rapier.with_pose (fun p =>
    Rapier.mkPose (Rapier.translation p) (Rapier.rotation p)
      (Some v) (Rapier.rotationWrtParent p))).

Definition setRotationWrtParent (c : Collider) (q : Quaternion) : M unit :=
  setter (Call_setRotationWrtParent c q) c
    (Rapier.with_pose (fun p =>
    Rapier.mkPose (Rapier.translation p) (Rapier.rotation p)
      (Rapier.translationWrtParent p) (Some q))).

Definition setActiveEvents (c : Collider) (b : bool) : M unit :=
  setter (Call_setActiveEvents c b) c
    (Rapier.with_material (fun m =>
    Rapier.mkMaterial (Some b) (Rapier.activeCollisionTypes m)
      (Rapier.restitution m) (Rapier.restitutionCombineRule m)
      (Rapier.friction m) (Rapier.frictionCombineRule m) (Rapier.sensor m)
      (Rapier.contactForceEventThreshold m))).

Definition setActiveCollisionTypes (c : Collider)
    (t : ActiveCollisionTypes.t) : M unit :=
  setter (Call_setActiveCollisionTypes c t) c
    (Rapier.with_material (fun m =>
    Rapier.mkMaterial (Rapier.activeEvents m) (Some t)
      (Rapier.restitution m) (Rapier.restitutionCombineRule m)
      (Rapier.friction m) (Rapier.frictionCombineRule m) (Rapier.sensor m)
      (Rapier.contactForceEventThreshold m))).

Definition setRestitution (c : Collider) (n : number) : M unit :=
  setter (Call_setRestitution c n) c
    (Rapier.with_material (fun m =>
    Rapier.mkMaterial (Rapier.activeEvents m) (Rapier.activeCollisionTypes m)
      (Some n) (Rapier.restitutionCombineRule m)
      (Rapier.friction m) (Rapier.frictionCombineRule m) (Rapier.sensor m)
      (Rapier.contactForceEventThreshold m))).

Definition setRestitutionCombineRule (c : Collider)
    (r : CoefficientCombineRule.t) : M unit :=
  setter (Call_setRestitutionCombineRule c r) c
    (Rapier.with_material (fun m =>
    Rapier.mkMaterial (Rapier.activeEvents m) (Rapier.activeCollisionTypes m)
      (Rapier.restitution m) (Some r)
      (Rapier.friction m) (Rapier.frictionCombineRule m) (Rapier.sensor m)
      (Rapier.contactForceEventThreshold m))).

Definition setFriction (c : Collider) (n : number) : M unit :=
  setter (Call_setFriction c n) c
    (Rapier.with_material (fun m =>
    Rapier.mkMaterial (Rapier.activeEvents m) (Rapier.activeCollisionTypes m)
      (Rapier.restitution m) (Rapier.restitutionCombineRule m)
      (Some n) (Rapier.frictionCombineRule m) (Rapier.sensor m)
      (Rapier.contactForceEventThreshold m))).

Definition setFrictionCombineRule (c : Collider)
    (r : CoefficientCombineRule.t) : M unit :=
  setter (Call_setFrictionCombineRule c r) c
    (Rapier.with_material (fun m =>
    Rapier.mkMaterial (Rapier.activeEvents m) (Rapier.activeCollisionTypes m)
      (Rapier.restitution m) (Rapier.restitutionCombineRule m)
      (Rapier.friction m) (Some r) (Rapier.sensor m)
      (Rapier.contactForceEventThreshold m))).

Definition setSensor (c : Collider) (b : bool) : M unit :=
  setter (Call_setSensor c b) c
    (Rapier.with_material (fun m =>
    Rapier.mkMaterial (Rapier.activeEvents m) (Rapier.activeCollisionTypes m)
      (Rapier.restitution m) (Rapier.restitutionCombineRule m)
      (Rapier.friction m) (Rapier.frictionCombineRule m) (Some b)
      (Rapier.contactForceEventThreshold m))).

Definition setContactForceEventThreshold (c : Collider) (n : number)
    : M unit :=
  setter (Call_setContactForceEventThreshold c n) c
    (Rapier.with_material (fun m =>
    Rapier.mkMaterial (Rapier.activeEvents m) (Rapier.activeCollisionTypes m)
      (Rapier.restitution m) (Rapier.restitutionCombineRule m)
      (Rapier.friction m) (Rapier.frictionCombineRule m) (Rapier.sensor m)
      (Some n))).

Definition setDensity (c : Collider) (n : number) : M unit :=
  setter (Call_setDensity c n) c
    (Rapier.with_massConfig (Rapier.ByDensity n)).

Definition setMass (c : Collider) (n : number) : M unit :=
  setter (Call_setMass c n) c
    (Rapier.with_massConfig (Rapier.ByMass n)).

Definition setMassProperties (c : Collider) (n : number)
    (centerOfMass principalAngularInertia : Vector3)
    (angularInertiaLocalFrame : Quaternion) : M unit :=
  setter (Call_setMassProperties c n centerOfMass principalAngularInertia
            angularInertiaLocalFrame) c
    (Rapier.with_massConfig
       (Rapier.ByMassProperties n centerOfMass principalAngularInertia
          angularInertiaLocalFrame)).

(** ** The component *)

Record MassProperties : Type := mkMassProperties {
  massProperties_mass : number;
  massProperties_centerOfMass : Position;
  massProperties_principalAngularInertia : Position;
  massProperties_angularInertiaLocalFrame : Rotation
}.

(** The exported properties.  [position], [rotation], [scale] and [lookAt]
    only reach the collider through the transform of [object], which the
    scene graph owns; they appear here as the world transform of the node. *)
Record Props : Type := mkProps {
  shape : Shape;
  args : Args;
  restitution : option number;
  restitutionCombineRule : option CoefficientCombineRule.t;
  friction : option number;
  frictionCombineRule : option CoefficientCombineRule.t;
  sensor : option bool;
  contactForceEventThreshold : option number;
  density : option number;
  mass : option number;
  massProperties : option MassProperties
}.

(** The variables of the component instance.  [mounted] and [destroyed]
    record which lifecycle callbacks the framework has already run. *)
Record Component : Type := mkComponent {
  props : Props;
  object : Object3D;
  rigidBody : option RigidBody;
  colliderHasEventListeners : bool;
  collider : option Collider;
  mounted : bool;
  destroyed : bool
}.

(** [const isAttached = !!rigidBody] *)
Definition isAttached (c : Component) : bool :=
  match rigidBody c with
  | Some _ => true
  | None => false
  end.

(** The instance as the script leaves it before any callback has run, when
    the parent does not supply the exported [collider]: it then has its
    default, [undefined]. *)
Definition Component_new (p : Props) (o : Object3D) (body : option RigidBody)
    (listeners : bool) : Component :=
  mkComponent p o body listeners None false false.

Definition set_collider (c : Component) (h : Collider) : Component :=
  mkComponent (props c) (object c) (rigidBody c) (colliderHasEventListeners c)
    (Some h) (mounted c) (destroyed c).

Definition set_mounted (c : Component) : Component :=
  mkComponent (props c) (object c) (rigidBody c) (colliderHasEventListeners c)
    (collider c) true (destroyed c).

Definition set_props (c : Component) (p : Props) : Component :=
  mkComponent p (object c) (rigidBody c) (colliderHasEventListeners c)
    (collider c) (mounted c) (destroyed c).

Definition set_object (c : Component) (o : Object3D) : Component :=
  mkComponent (props c) o (rigidBody c) (colliderHasEventListeners c)
    (collider c) (mounted c) (destroyed c).

Definition set_destroyed (c : Component) : Component :=
  mkComponent (props c) (object c) (rigidBody c) (colliderHasEventListeners c)
    (collider c) (mounted c) true.

(** Modelled from the spec: [applyColliderActiveEvents] of
    [lib/applyColliderActiveEvents] is not part of the source at hand; the
    spec has the active-event flags "derived from whether any listener is
    registered on this component or its parent body". *)
Definition applyColliderActiveEvents (c : Collider)
    (colliderHasEventListeners : bool)
    (rigidBodyHasEventListeners : option bool) : M unit :=
  setActiveEvents c
    (colliderHasEventListeners || (rigidBodyHasEventListeners ?? false)).

(** The callback handed to [traverseAncestors] in [onMount]: on a flagged
    ancestor it overwrites both captured variables. *)
Definition captureRigidBody (child : Object3D)
    (captured : Vector3 * Quaternion) : Vector3 * Quaternion :=
  if userData_isRigidBody child
  then (Object3D_getWorldPosition child,
        Quaternion_invert (Object3D_getWorldQuaternion child))
  else captured.

(** The pose relative to the parent body that [onMount] computes for the
    node [o]. *)
Definition relativePose (o : Object3D) : Vector3 * Quaternion :=
  let '(rigidBodyWorldPos, rigidBodyWorldQuatInversed) :=
    traverseAncestors o captureRigidBody (Vector3_new, Quaternion_new) in
  let worldPosition :=
    Vector3_sub (Object3D_getWorldPosition o) rigidBodyWorldPos in
  let worldRotation :=
    Quaternion_premultiply (Object3D_getWorldQuaternion o)
      rigidBodyWorldQuatInversed in
  (worldPosition, worldRotation).

(** The body of [onMount], after [await tick()]. *)
Definition onMount (c : Component) : M Component :=
  let scale := Object3D_getWorldScale (object c) in
  let scaledArgs :=
    scaleColliderArgs (shape (props c)) (args (props c)) scale in
  let colliderDesc := mkColliderDesc (shape (props c)) scaledArgs in
  collider ← world_createCollider colliderDesc (rigidBody c) ;
  rapierContext_addColliderToContext collider (object c) ;;
  collisionGroups_registerColliders [collider] ;;
  (if isAttached c then
     let '(worldPosition, worldRotation) := relativePose (object c) in
     setTranslationWrtParent collider worldPosition ;;
     setRotationWrtParent collider worldRotation
   else
     setTranslation collider (Object3D_getWorldPosition (object c)) ;;
     setRotation collider (Object3D_getWorldQuaternion (object c))) ;;
  mret (set_collider c collider).

(** [if (x) k(x)] for an optional number [x]. *)
Definition if_number (x : option number) (k : number -> M unit) : M unit :=
  match x with
  | Some n => if truthy n then k n else mret tt
  | None => mret tt
  end.

(** The reactive block [$: { if (collider) { ... } }]. *)
Definition reactive_block (c : Component) : M unit :=
  match collider c with
  | Some collider =>
      applyColliderActiveEvents collider (colliderHasEventListeners c)
        (rigidBody c ≫= rigidBody_userData_hasEventListeners) ;;
      setActiveCollisionTypes collider ActiveCollisionTypes.ALL ;;
      setRestitution collider (restitution (props c) ?? 0%Qc) ;;
      setContactForceEventThreshold collider 1%Qc ;;
      setRestitutionCombineRule collider
        (restitutionCombineRule (props c) ?? CoefficientCombineRule.Average) ;;
      setFriction collider (friction (props c) ?? Q2Qc 0.7) ;;
      setFrictionCombineRule collider
        (frictionCombineRule (props c) ?? CoefficientCombineRule.Average) ;;
      setSensor collider (sensor (props c) ?? false) ;;
      setContactForceEventThreshold collider
        (contactForceEventThreshold (props c) ?? 0%Qc) ;;
      if_number (density (props c)) (setDensity collider) ;;
      if_number (mass (props c)) (setMass collider) ;;
      match massProperties (props c) with
      | Some massProperties =>
          setMassProperties collider
            (massProperties_mass massProperties)
            (positionToVector3 (massProperties_centerOfMass massProperties))
            (positionToVector3
               (massProperties_principalAngularInertia massProperties))
            (rotationToQuaternion
               (massProperties_angularInertiaLocalFrame massProperties))
      | None => mret tt
      end
  | None => mret tt
  end.

(** The callback handed to [useFrame]. *)
Definition useFrame_callback (c : Component) : M unit :=
  match collider c with
  | None => mret tt
  | Some collider =>
      setTranslation collider (getWorldPosition (object c)) ;;
      setRotation collider (getWorldQuaternion (object c))
  end.

(** The callback handed to [onDestroy]. *)
Definition onDestroy (c : Component) : M unit :=
  match collider c with
  | None => mret tt
  | Some collider =>
      rapierContext_removeColliderFromContext collider ;;
      collisionGroups_removeColliders [collider] ;;
      world_removeCollider collider true
  end.

(** ** The lifecycle *)

(** Modelled from the spec: [useFrame] of the component framework is not
    part of the source at hand; the spec describes it as "a per-frame
    callback registration with an auto-start option".  The component drops
    the handle [useFrame] returns, so a callback that is not started
    automatically is never started.  [useFrame callback autostart] is what
    one simulation frame runs for this registration. *)
Definition useFrame (callback : M unit) (autostart : bool) : M unit :=
  if autostart then callback else mret tt.

(** What can happen to a component instance:
    - [Mounted]: the deferred body of [onMount] runs;
    - [Invalidated p]: the properties change to [p] and the reactive block
      is run again;
    - [Moved o]: the scene graph changes the node, its transform or its
      ancestors, to [o];
    - [Frame]: one simulation frame;
    - [Destroyed]: the component is unmounted. *)
Inductive Event : Type :=
  | Mounted
  | Invalidated (p : Props)
  | Moved (o : Object3D)
  | Frame
  | Destroyed.

(** One event.  The framework runs [onMount] and [onDestroy] once each, and
    delivers neither frames nor reactive updates to a destroyed instance. *)
Definition step (c : Component) (e : Event) : M Component :=
  match e with
  | Mounted =>
      if mounted c then mret c
      else c' ← onMount c ; mret (set_mounted c')
  | Invalidated p =>
      if destroyed c then mret c
      else reactive_block (set_props c p) ;; mret (set_props c p)
  | Moved o =>
      mret (set_object c o)
  | Frame =>
      if destroyed c then mret c
      else useFrame (useFrame_callback c) (negb (isAttached c)) ;; mret c
  | Destroyed =>
      if destroyed c then mret c
      else onDestroy c ;; mret (set_destroyed c)
  end.

(** A sequence of events, oldest first. *)
Fixpoint run (es : list Event) (c : Component) : M Component :=
  match es with
  | [] => mret c
  | e :: es' => c' ← step c e ; run es' c'
  end.

(** ** Vocabulary of the statements *)

(** The calls a computation adds to the log of [w]. *)
Definition emitted {A : Type} (m : M A) (w : World) : list Call :=
  drop (length (calls w)) (calls (exec m w)).

Definition is_pose_setter (c : Call) : bool :=
  match c with
  | Call_setTranslation _ _ | Call_setRotation _ _
  | Call_setTranslationWrtParent _ _ | Call_setRotationWrtParent _ _ => true
  | _ => false
  end.

Definition is_mass_setter (c : Call) : bool :=
  match c with
  | Call_setDensity _ _ | Call_setMass _ _
  | Call_setMassProperties _ _ _ _ _ => true
  | _ => false
  end.

Definition is_threshold_setter (c : Call) : bool :=
  match c with
  | Call_setContactForceEventThreshold _ _ => true
  | _ => false
  end.

Definition is_material_setter (c : Call) : bool :=
  match c with
  | Call_setActiveCollisionTypes _ _ | Call_setRestitution _ _
  | Call_setRestitutionCombineRule _ _ | Call_setFriction _ _
  | Call_setFrictionCombineRule _ _ | Call_setSensor _ _ => true
  | _ => false
  end.

Definition is_removal (c : Call) : bool :=
  match c with
  | Call_removeColliderFromContext _ | Call_removeColliders _
  | Call_removeCollider _ _ => true
  | _ => false
  end.

(** The properties [p] with [density], respectively [mass], replaced. *)
Definition with_density (p : Props) (d : option number) : Props :=
  mkProps (shape p) (args p) (restitution p) (restitutionCombineRule p)
    (friction p) (frictionCombineRule p) (sensor p)
    (contactForceEventThreshold p) d (mass p) (massProperties p).

Definition with_mass (p : Props) (m : option number) : Props :=
  mkProps (shape p) (args p) (restitution p) (restitutionCombineRule p)
    (friction p) (frictionCombineRule p) (sensor p)
    (contactForceEventThreshold p) (density p) m (massProperties p).

(** No material or behaviour property is supplied. *)
Definition no_overrides (p : Props) : Prop :=
  restitution p = None /\ restitutionCombineRule p = None /\
  friction p = None /\ frictionCombineRule p = None /\ sensor p = None.

(** Every pose the world holds after was already held before. *)
Definition poses_preserved (w1 w2 : World) : Prop :=
  forall k s2,
    world_colliders w2 !! k = Some s2 ->
    exists s1, world_colliders w1 !! k = Some s1
               /\ Rapier.pose s2 = Rapier.pose s1.

(** The collider of a live instance is held by the physics world. *)
Definition collider_in_world (c : Component) (w : World) : Prop :=
  destroyed c = false ->
  forall h, collider c = Some h -> is_Some (world_colliders w !! h).

(** The ancestors of [o] that carry the rigid-body flag, nearest first. *)
Definition flaggedAncestors (o : Object3D) : list Object3D :=
  List.filter userData_isRigidBody (ancestors o).

(** The pose of the node [o] expressed in the frame of [anchor]: world
    position minus the anchor's world position, world rotation premultiplied
    by the inverse of the anchor's world rotation. *)
Definition poseRelativeTo (o anchor : Object3D) : Vector3 * Quaternion :=
  (Vector3_sub (Object3D_getWorldPosition o)
     (Object3D_getWorldPosition anchor),
   Quaternion_premultiply (Object3D_getWorldQuaternion o)
     (Quaternion_invert (Object3D_getWorldQuaternion anchor))).

(** The relative pose as the specification words it: with respect to the
    nearest flagged ancestor. *)
Definition relativePose_nearest (o : Object3D)
    : option (Vector3 * Quaternion) :=
  poseRelativeTo o <$> head (flaggedAncestors o).

(** *** A scene with two nested rigid bodies

    An outer body at (10, 0, 0), an inner body at (13, 0, 0) turned by half
    a turn about the z axis, and the collider's node one unit further along
    x, turned like the inner body. *)

Definition unit_scale : Vector3 := mkVector3 1%Qc 1%Qc 1%Qc.

Definition half_turn_z : Quaternion := mkQuaternion 0%Qc 0%Qc 1%Qc 0%Qc.

Definition outer_body : Object3D :=
  mkObject3D (mkVector3 (Q2Qc 10) 0%Qc 0%Qc) Quaternion_new unit_scale
    true None.

Definition inner_body : Object3D :=
  mkObject3D (mkVector3 (Q2Qc 13) 0%Qc 0%Qc) half_turn_z unit_scale
    true (Some outer_body).

Definition nested_node : Object3D :=
  mkObject3D (mkVector3 (Q2Qc 14) 0%Qc 0%Qc) half_turn_z unit_scale
    false (Some inner_body).

(** A node below an unflagged group, and the same node after a move. *)
Definition plain_group : Object3D :=
  mkObject3D (mkVector3 (Q2Qc 2) 0%Qc 0%Qc) Quaternion_new unit_scale
    false None.

Definition plain_node : Object3D :=
  mkObject3D (mkVector3 (Q2Qc 3) 1%Qc 0%Qc) half_turn_z unit_scale
    false (Some plain_group).

Definition moved_node : Object3D :=
  mkObject3D (mkVector3 (Q2Qc 5) 1%Qc 1%Qc) Quaternion_new unit_scale
    false (Some plain_group).

(** Properties that supply nothing but the shape, and an empty world. *)
Definition bare_props (a : Args) : Props :=
  mkProps ball a None None None None None None None None None.

Definition empty_world : World := mkWorld ∅ ∅ ∅ [].

(** Properties that supply the contact-force-event threshold [t] and
    nothing else, and a world that holds one collider, in the state [s],
    under the handle 0. *)
Definition threshold_props (a : Args) (t : number) : Props :=
  mkProps ball a None None None None None (Some t) None None None.

Definition world_with (s : Rapier.ColliderState) : World :=
  mkWorld {[0 := s]} ∅ ∅ [].

Definition parent_body : RigidBody := mkRigidBody 7 None.

(** Stand-ins for the three helpers where the shape arguments and the
    position and rotation notations carry no information. *)
Definition no_scaling (s : Shape) (a : unit) (scale : Vector3) : unit := a.

Definition origin_of (p : unit) : Vector3 := Vector3_new.

Definition identity_of (r : unit) : Quaternion := Quaternion_new.

(** *** Further vocabulary *)

Definition is_createCollider (c : Call) : bool :=
  match c with
  | Call_createCollider _ _ => true
  | _ => false
  end.

(** The collider of a live instance is held by the physics world and by
    both registries. *)
Definition registered (c : Component) (w : World) : Prop :=
  destroyed c = false ->
  forall h, collider c = Some h ->
    is_Some (world_colliders w !! h)
    /\ h ∈ context_colliders w
    /\ h ∈ collisionGroups_colliders w.

(** What the world [w0] held for the handle [k] is still what [w] holds
    for it: the same collider state and the same registry memberships. *)
Definition untouched (w0 w : World) (k : Collider) : Prop :=
  world_colliders w !! k = world_colliders w0 !! k
  /\ (k ∈ context_colliders w <-> k ∈ context_colliders w0)
  /\ (k ∈ collisionGroups_colliders w <-> k ∈ collisionGroups_colliders w0).


(** Properties that supply all three mass configurations at once. *)
Definition all_mass_props (a : Args) (d m : number) (mp : MassProperties)
    : Props :=
  mkProps ball a None None None None None None (Some d) (Some m) (Some mp).



(** With respect to the world [w0] and the collider [col] the instance
    held then: what the world held, [col] apart, is still as [w0] had it,
    and the collider the instance holds now is [col] or one that [w0] did
    not hold. *)
Definition keeps_apart (w0 : World) (col : option Collider) (c : Component)
    (w : World) : Prop :=
  (forall k, is_Some (world_colliders w0 !! k) -> col <> Some k ->
             untouched w0 w k)
  /\ (forall h, collider c = Some h ->
                col = Some h \/ world_colliders w0 !! h = None).

(** A collider that already holds a density. *)
Definition dense_state : Rapier.ColliderState :=
  Rapier.mkColliderState None
    (Rapier.mkPose None None None None)
    (Rapier.mkMaterial None None None None None None None None)
    (Some (Rapier.ByDensity (Q2Qc 2.5))).

(** A world that holds two colliders, under the handles 0 and 1. *)
Definition two_collider_world : World :=
  mkWorld (<[1 := dense_state]> {[0 := Rapier.ColliderState_new None]})
    ∅ ∅ [].

(** ** Reasoning about the monad *)

Lemma exec_ret {A : Type} (a : A) (w : World) : exec (mret a) w = w.
Proof. reflexivity. Qed.

Lemma exec_bind {A B : Type} (m : M A) (f : A -> M B) (w : World) :
  exec (m ≫= f) w = exec (f (m w).1) (exec m w).
Proof. unfold exec, mbind, M_bind. destruct (m w); reflexivity. Qed.

Lemma result_bind {A B : Type} (m : M A) (f : A -> M B) (w : World) :
  ((m ≫= f) w).1 = (f (m w).1 (exec m w)).1.
Proof. unfold exec, mbind, M_bind. destruct (m w); reflexivity. Qed.

(** *** Each primitive, field by field *)

Lemma calls_setter call c f w :
  calls (exec (setter call c f) w) = calls w ++ [call].
Proof. reflexivity. Qed.

Lemma colliders_setter call c f w :
  world_colliders (exec (setter call c f) w) = alter f c (world_colliders w).
Proof. reflexivity. Qed.

Lemma context_setter call c f w :
  context_colliders (exec (setter call c f) w) = context_colliders w.
Proof. reflexivity. Qed.

Lemma groups_setter call c f w :
  collisionGroups_colliders (exec (setter call c f) w)
  = collisionGroups_colliders w.
Proof. reflexivity. Qed.

Lemma result_createCollider desc body w :
  (world_createCollider desc body w).1 = fresh (dom (world_colliders w)).
Proof. reflexivity. Qed.

Lemma calls_createCollider desc body w :
  calls (exec (world_createCollider desc body) w)
  = calls w ++ [Call_createCollider desc body].
Proof. reflexivity. Qed.

Lemma colliders_createCollider desc body w :
  world_colliders (exec (world_createCollider desc body) w)
  = <[fresh (dom (world_colliders w)) := Rapier.ColliderState_new body]>
      (world_colliders w).
Proof. reflexivity. Qed.

Lemma context_createCollider desc body w :
  context_colliders (exec (world_createCollider desc body) w)
  = context_colliders w.
Proof. reflexivity. Qed.

Lemma groups_createCollider desc body w :
  collisionGroups_colliders (exec (world_createCollider desc body) w)
  = collisionGroups_colliders w.
Proof. reflexivity. Qed.

Lemma calls_removeCollider c b w :
  calls (exec (world_removeCollider c b) w)
  = calls w ++ [Call_removeCollider c b].
Proof. reflexivity. Qed.

Lemma colliders_removeCollider c b w :
  world_colliders (exec (world_removeCollider c b) w)
  = delete c (world_colliders w).
Proof. reflexivity. Qed.

Lemma context_removeCollider c b w :
  context_colliders (exec (world_removeCollider c b) w) = context_colliders w.
Proof. reflexivity. Qed.

Lemma groups_removeCollider c b w :
  collisionGroups_colliders (exec (world_removeCollider c b) w)
  = collisionGroups_colliders w.
Proof. reflexivity. Qed.

Lemma calls_addColliderToContext c o w :
  calls (exec (rapierContext_addColliderToContext c o) w)
  = calls w ++ [Call_addColliderToContext c o].
Proof. reflexivity. Qed.

Lemma colliders_addColliderToContext c o w :
  world_colliders (exec (rapierContext_addColliderToContext c o) w)
  = world_colliders w.
Proof. reflexivity. Qed.

Lemma context_addColliderToContext c o w :
  context_colliders (exec (rapierContext_addColliderToContext c o) w)
  = {[c]} ∪ context_colliders w.
Proof. reflexivity. Qed.

Lemma groups_addColliderToContext c o w :
  collisionGroups_colliders (exec (rapierContext_addColliderToContext c o) w)
  = collisionGroups_colliders w.
Proof. reflexivity. Qed.

Lemma calls_removeColliderFromContext c w :
  calls (exec (rapierContext_removeColliderFromContext c) w)
  = calls w ++ [Call_removeColliderFromContext c].
Proof. reflexivity. Qed.

Lemma colliders_removeColliderFromContext c w :
  world_colliders (exec (rapierContext_removeColliderFromContext c) w)
  = world_colliders w.
Proof. reflexivity. Qed.

Lemma context_removeColliderFromContext c w :
  context_colliders (exec (rapierContext_removeColliderFromContext c) w)
  = context_colliders w ∖ {[c]}.
Proof. reflexivity. Qed.

Lemma groups_removeColliderFromContext c w :
  collisionGroups_colliders
    (exec (rapierContext_removeColliderFromContext c) w)
  = collisionGroups_colliders w.
Proof. reflexivity. Qed.

Lemma calls_registerColliders cs w :
  calls (exec (collisionGroups_registerColliders cs) w)
  = calls w ++ [Call_registerColliders cs].
Proof. reflexivity. Qed.

Lemma colliders_registerColliders cs w :
  world_colliders (exec (collisionGroups_registerColliders cs) w)
  = world_colliders w.
Proof. reflexivity. Qed.

Lemma context_registerColliders cs w :
  context_colliders (exec (collisionGroups_registerColliders cs) w)
  = context_colliders w.
Proof. reflexivity. Qed.

Lemma groups_registerColliders cs w :
  collisionGroups_colliders (exec (collisionGroups_registerColliders cs) w)
  = list_to_set cs ∪ collisionGroups_colliders w.
Proof. reflexivity. Qed.

Lemma calls_removeColliders cs w :
  calls (exec (collisionGroups_removeColliders cs) w)
  = calls w ++ [Call_removeColliders cs].
Proof. reflexivity. Qed.

Lemma colliders_removeColliders cs w :
  world_colliders (exec (collisionGroups_removeColliders cs) w)
  = world_colliders w.
Proof. reflexivity. Qed.

Lemma context_removeColliders cs w :
  context_colliders (exec (collisionGroups_removeColliders cs) w)
  = context_colliders w.
Proof. reflexivity. Qed.

Lemma groups_removeColliders cs w :
  collisionGroups_colliders (exec (collisionGroups_removeColliders cs) w)
  = collisionGroups_colliders w ∖ list_to_set cs.
Proof. reflexivity. Qed.

(** The rewriting base [world] pushes [exec] through a handler down to the
    world the handler started from. *)
Create Rewrite HintDb world.

#[local] Hint Rewrite @exec_ret @exec_bind
  calls_setter colliders_setter context_setter groups_setter
  result_createCollider calls_createCollider colliders_createCollider
  context_createCollider groups_createCollider
  calls_removeCollider colliders_removeCollider context_removeCollider
  groups_removeCollider
  calls_addColliderToContext colliders_addColliderToContext
  context_addColliderToContext groups_addColliderToContext
  calls_removeColliderFromContext colliders_removeColliderFromContext
  context_removeColliderFromContext groups_removeColliderFromContext
  calls_registerColliders colliders_registerColliders
  context_registerColliders groups_registerColliders
  calls_removeColliders colliders_removeColliders context_removeColliders
  groups_removeColliders : world.

(** Unfolds the setters to [setter], the form the base [world] knows. *)
Ltac unfold_setters :=
  unfold applyColliderActiveEvents, setTranslation, setRotation,
    setTranslationWrtParent, setRotationWrtParent, setActiveEvents,
    setActiveCollisionTypes, setRestitution, setRestitutionCombineRule,
    setFriction, setFrictionCombineRule, setSensor,
    setContactForceEventThreshold, setDensity, setMass, setMassProperties.

(** Puts the log in the form [calls w ++ l] with [l] an explicit list. *)
Ltac flatten_calls :=
  autorewrite with world; rewrite <- ?app_assoc; cbn [app].

Lemma emitted_intro {A : Type} (m : M A) (w : World) (l : list Call) :
  calls (exec m w) = calls w ++ l -> emitted m w = l.
Proof. intros E. unfold emitted. rewrite E. apply drop_app_length. Qed.

(** *** The handlers before the collider exists *)

Lemma useFrame_callback_None c w :
  collider c = None -> useFrame_callback c w = (tt, w).
Proof. intros E. unfold useFrame_callback. rewrite E. reflexivity. Qed.

Lemma reactive_block_None c w :
  collider c = None -> reactive_block c w = (tt, w).
Proof. intros E. unfold reactive_block. rewrite E. reflexivity. Qed.

Lemma onDestroy_None c w : collider c = None -> onDestroy c w = (tt, w).
Proof. intros E. unfold onDestroy. rewrite E. reflexivity. Qed.

Lemma step_None c e w :
  collider c = None -> e <> Mounted ->
  collider (step c e w).1 = None /\ exec (step c e) w = w.
Proof.
  intros E Hne. destruct e as [|p|o| |]; [congruence|..]; cbn [step].
  - destruct (destroyed c); [auto|].
    unfold exec, mbind, M_bind. rewrite reactive_block_None by exact E. auto.
  - auto.
  - destruct (destroyed c); [auto|].
    unfold exec, mbind, M_bind, useFrame.
    destruct (negb (isAttached c)); [|auto].
    rewrite useFrame_callback_None by exact E. auto.
  - destruct (destroyed c); [auto|].
    unfold exec, mbind, M_bind. rewrite onDestroy_None by exact E. auto.
Qed.

Lemma run_None es c w :
  collider c = None -> Mounted ∉ es -> exec (run es c) w = w.
Proof.
  revert c w. induction es as [|e es IH]; intros c w E Hnot; [reflexivity|].
  apply not_elem_of_cons in Hnot as [Hne Hnot].
  cbn [run]. rewrite exec_bind.
  destruct (step_None c e w E) as [E' Hw]; [congruence|].
  rewrite Hw. apply IH; assumption.
Qed.

(** *** Teardown *)

Lemma calls_onDestroy c w h :
  collider c = Some h ->
  calls (exec (onDestroy c) w)
  = calls w ++ [Call_removeColliderFromContext h; Call_removeColliders [h];
                Call_removeCollider h true].
Proof. intros E. unfold onDestroy. rewrite E. flatten_calls. reflexivity. Qed.

Lemma world_onDestroy c w h :
  collider c = Some h ->
  world_colliders (exec (onDestroy c) w) = delete h (world_colliders w)
  /\ context_colliders (exec (onDestroy c) w) = context_colliders w ∖ {[h]}
  /\ collisionGroups_colliders (exec (onDestroy c) w)
     = collisionGroups_colliders w ∖ list_to_set [h].
Proof.
  intros E. unfold onDestroy. rewrite E. autorewrite with world. auto.
Qed.

(** *** The reactive block *)

(** The block only ever touches the component's own collider. *)
Lemma colliders_reactive_block c w h :
  collider c = Some h ->
  exists f, world_colliders (exec (reactive_block c) w)
            = alter f h (world_colliders w)
    /\ forall s, Rapier.pose (f s) = Rapier.pose s
    /\ Rapier.restitution (Rapier.material (f s))
       = Some (restitution (props c) ?? 0%Qc)
    /\ Rapier.restitutionCombineRule (Rapier.material (f s))
       = Some (restitutionCombineRule (props c)
               ?? CoefficientCombineRule.Average)
    /\ Rapier.friction (Rapier.material (f s))
       = Some (friction (props c) ?? Q2Qc 0.7)
    /\ Rapier.frictionCombineRule (Rapier.material (f s))
       = Some (frictionCombineRule (props c)
               ?? CoefficientCombineRule.Average)
    /\ Rapier.sensor (Rapier.material (f s)) = Some (sensor (props c) ?? false)
    /\ Rapier.activeCollisionTypes (Rapier.material (f s))
       = Some ActiveCollisionTypes.ALL
    /\ Rapier.contactForceEventThreshold (Rapier.material (f s))
       = Some (contactForceEventThreshold (props c) ?? 0%Qc).
Proof.
  intros E. unfold reactive_block, if_number. rewrite E.
  destruct (density (props c)) as [d|]; [destruct (truthy d)|];
    (destruct (mass (props c)) as [m|]; [destruct (truthy m)|]);
    destruct (massProperties (props c)) as [mp|];
    unfold_setters; autorewrite with world; rewrite ?alter_alter_eq;
    (eexists; split; [reflexivity|]); intros s; repeat split.
Qed.

(** *** Mounting and the frame callback *)

Lemma exec_then_ret {A B : Type} (m : M A) (b : B) (w : World) :
  exec (m ;; mret b) w = exec m w.
Proof. rewrite exec_bind. reflexivity. Qed.

Lemma result_then_ret {A B : Type} (m : M A) (b : B) (w : World) :
  ((m ;; mret b) w).1 = b.
Proof. rewrite result_bind. reflexivity. Qed.

Lemma result_onMount c w :
  (onMount c w).1 = set_collider c (fresh (dom (world_colliders w))).
Proof.
  unfold onMount. rewrite result_bind.
  destruct (isAttached c); [destruct (relativePose (object c))|];
    rewrite !result_bind; reflexivity.
Qed.

Lemma exec_step_Mounted c w :
  mounted c = false -> exec (step c Mounted) w = exec (onMount c) w.
Proof. intros Hm. cbn [step]. rewrite Hm, exec_bind. reflexivity. Qed.

Lemma result_step_Mounted c w :
  mounted c = false ->
  (step c Mounted w).1
  = set_mounted (set_collider c (fresh (dom (world_colliders w)))).
Proof.
  intros Hm. cbn [step]. rewrite Hm, result_bind. cbn [mret M_ret fst].
  rewrite result_onMount. reflexivity.
Qed.

Lemma calls_onMount c w :
  let h := fresh (dom (world_colliders w)) in
  calls (exec (onMount c) w)
  = calls w
    ++ [Call_createCollider
          (mkColliderDesc (shape (props c))
             (scaleColliderArgs (shape (props c)) (args (props c))
                (Object3D_getWorldScale (object c))))
          (rigidBody c);
        Call_addColliderToContext h (object c);
        Call_registerColliders [h]]
    ++ (if isAttached c
        then [Call_setTranslationWrtParent h (relativePose (object c)).1;
              Call_setRotationWrtParent h (relativePose (object c)).2]
        else [Call_setTranslation h (Object3D_getWorldPosition (object c));
              Call_setRotation h (Object3D_getWorldQuaternion (object c))]).
Proof.
  intros h. subst h. unfold onMount.
  destruct (isAttached c); [destruct (relativePose (object c))|];
    unfold_setters; flatten_calls; reflexivity.
Qed.

Lemma colliders_onMount c w :
  let h := fresh (dom (world_colliders w)) in
  exists s,
    world_colliders (exec (onMount c) w) = <[h := s]> (world_colliders w)
    /\ Rapier.pose s
       = if isAttached c
         then Rapier.mkPose None None (Some (relativePose (object c)).1)
                (Some (relativePose (object c)).2)
         else Rapier.mkPose (Some (Object3D_getWorldPosition (object c)))
                (Some (Object3D_getWorldQuaternion (object c))) None None.
Proof.
  intros h. subst h. unfold onMount.
  destruct (isAttached c); [destruct (relativePose (object c))|];
    unfold_setters; autorewrite with world;
    rewrite !alter_insert_eq; (eexists; split; [reflexivity|]); reflexivity.
Qed.

Lemma calls_useFrame_callback c w h :
  collider c = Some h ->
  calls (exec (useFrame_callback c) w)
  = calls w ++ [Call_setTranslation h (getWorldPosition (object c));
                Call_setRotation h (getWorldQuaternion (object c))].
Proof.
  intros E. unfold useFrame_callback. rewrite E.
  unfold_setters; flatten_calls; reflexivity.
Qed.

Lemma colliders_useFrame_callback c w h :
  collider c = Some h ->
  exists f,
    world_colliders (exec (useFrame_callback c) w)
    = alter f h (world_colliders w)
    /\ forall s,
         Rapier.translation (Rapier.pose (f s))
         = Some (getWorldPosition (object c))
         /\ Rapier.rotation (Rapier.pose (f s))
            = Some (getWorldQuaternion (object c)).
Proof.
  intros E. unfold useFrame_callback. rewrite E.
  unfold_setters. autorewrite with world. rewrite alter_alter_eq.
  eexists; split; [reflexivity|]. intros s; split; reflexivity.
Qed.

Lemma calls_reactive_block c w :
  exists l,
    calls (exec (reactive_block c) w) = calls w ++ l
    /\ List.filter is_pose_setter l = []
    /\ List.filter is_removal l = [].
Proof.
  unfold reactive_block, if_number.
  destruct (collider c) as [h|];
    [|exists []; rewrite exec_ret, app_nil_r; auto].
  destruct (density (props c)) as [d|]; [destruct (truthy d)|];
    (destruct (mass (props c)) as [m|]; [destruct (truthy m)|]);
    destruct (massProperties (props c)) as [mp|];
    unfold_setters; (eexists; split; [flatten_calls; reflexivity|]);
    split; reflexivity.
Qed.

(** *** What any run of events does to the log and to the poses *)

Lemma poses_preserved_refl w : poses_preserved w w.
Proof. intros k s Hk. exists s; auto. Qed.

Lemma poses_preserved_trans w1 w2 w3 :
  poses_preserved w1 w2 -> poses_preserved w2 w3 -> poses_preserved w1 w3.
Proof.
  intros H12 H23 k s3 Hk.
  destruct (H23 k s3 Hk) as (s2 & Hk2 & E23).
  destruct (H12 k s2 Hk2) as (s1 & Hk1 & E12).
  exists s1. split; [assumption|congruence].
Qed.

Lemma poses_preserved_alter w1 w2 f h :
  world_colliders w2 = alter f h (world_colliders w1) ->
  (forall s, Rapier.pose (f s) = Rapier.pose s) ->
  poses_preserved w1 w2.
Proof.
  intros Hw Hf k s2 Hk. rewrite Hw in Hk.
  destruct (decide (h = k)) as [->|Hne].
  - rewrite lookup_alter_eq in Hk.
    destruct (world_colliders w1 !! k) as [s1|]; [|discriminate].
    injection Hk as <-. exists s1. auto.
  - rewrite lookup_alter_ne in Hk by exact Hne. exists s2. auto.
Qed.

Lemma poses_preserved_delete w1 w2 h :
  world_colliders w2 = delete h (world_colliders w1) ->
  poses_preserved w1 w2.
Proof.
  intros Hw k s2 Hk. rewrite Hw in Hk.
  apply lookup_delete_Some in Hk as [_ Hk]. exists s2. auto.
Qed.

(** One event: the log only grows; a destroyed instance removes nothing; an
    instance that is attached and already mounted sets no pose and leaves
    every pose in the world alone. *)
Lemma step_extends c e w :
  exists l,
    calls (exec (step c e) w) = calls w ++ l
    /\ rigidBody (step c e w).1 = rigidBody c
    /\ (destroyed c = true ->
        destroyed (step c e w).1 = true /\ List.filter is_removal l = [])
    /\ (mounted c = true -> isAttached c = true ->
        mounted (step c e w).1 = true
        /\ List.filter is_pose_setter l = []
        /\ poses_preserved w (exec (step c e) w)).
Proof.
  destruct e as [|p|o| |]; cbn [step].
  - (* Mounted *)
    destruct (mounted c) eqn:Hm.
    + exists []. rewrite exec_ret, app_nil_r.
      repeat split; auto using poses_preserved_refl.
    + rewrite exec_bind, exec_ret, result_bind. cbn [mret M_ret fst].
      rewrite result_onMount.
      eexists. split; [apply calls_onMount|]. split; [reflexivity|].
      split; [|discriminate].
      intros Hd. split; [exact Hd|]. destruct (isAttached c); reflexivity.
  - (* Invalidated *)
    destruct (destroyed c) eqn:Hd.
    + exists []. rewrite exec_ret, app_nil_r.
      repeat split; auto using poses_preserved_refl.
    + rewrite exec_then_ret, result_then_ret.
      destruct (calls_reactive_block (set_props c p) w) as (l & Hl & Hp & Hr).
      exists l. split; [exact Hl|]. split; [reflexivity|].
      split; [discriminate|]. intros Hm Ha. split; [exact Hm|].
      split; [exact Hp|].
      destruct (collider c) as [h|] eqn:E.
      * destruct (colliders_reactive_block (set_props c p) w h E)
          as (f & Hw & Hf).
        eapply poses_preserved_alter; [exact Hw|]. intros s. apply Hf.
      * unfold exec. rewrite reactive_block_None by exact E.
        apply poses_preserved_refl.
  - (* Moved *)
    exists []. rewrite exec_ret, app_nil_r.
    repeat split; auto using poses_preserved_refl.
  - (* Frame *)
    destruct (destroyed c) eqn:Hd.
    + exists []. rewrite exec_ret, app_nil_r.
      repeat split; auto using poses_preserved_refl.
    + rewrite exec_then_ret, result_then_ret. unfold useFrame.
      destruct (isAttached c) eqn:Ha; cbn [negb].
      * exists []. rewrite exec_ret, app_nil_r.
        repeat split; auto using poses_preserved_refl; discriminate.
      * destruct (collider c) as [h|] eqn:E.
        -- eexists. split; [apply calls_useFrame_callback, E|].
           split; [reflexivity|]. split; discriminate.
        -- exists []. unfold exec.
           rewrite useFrame_callback_None, app_nil_r by exact E.
           repeat split; discriminate.
  - (* Destroyed *)
    destruct (destroyed c) eqn:Hd.
    + exists []. rewrite exec_ret, app_nil_r.
      repeat split; auto using poses_preserved_refl.
    + rewrite exec_then_ret, result_then_ret.
      destruct (collider c) as [h|] eqn:E.
      * eexists. split; [apply calls_onDestroy, E|].
        split; [reflexivity|]. split; [discriminate|].
        intros Hm Ha. split; [exact Hm|]. split; [reflexivity|].
        destruct (world_onDestroy c w h E) as (Hc & _).
        eapply poses_preserved_delete, Hc.
      * exists []. unfold exec.
        rewrite onDestroy_None, app_nil_r by exact E.
        repeat split; auto using poses_preserved_refl; discriminate.
Qed.

Lemma isAttached_rigidBody c c' :
  rigidBody c' = rigidBody c -> isAttached c' = isAttached c.
Proof. unfold isAttached. intros ->. reflexivity. Qed.

Lemma run_extends es c w :
  exists l,
    calls (exec (run es c) w) = calls w ++ l
    /\ rigidBody (run es c w).1 = rigidBody c
    /\ (destroyed c = true -> List.filter is_removal l = [])
    /\ (mounted c = true -> isAttached c = true ->
        List.filter is_pose_setter l = []
        /\ poses_preserved w (exec (run es c) w)).
Proof.
  revert c w. induction es as [|e es IH]; intros c w; cbn [run].
  - exists []. rewrite exec_ret, app_nil_r.
    repeat split; auto using poses_preserved_refl.
  - rewrite exec_bind, result_bind.
    destruct (step_extends c e w) as (l1 & Hl1 & Hrb1 & Hd1 & Hm1).
    destruct (IH (step c e w).1 (exec (step c e) w))
      as (l2 & Hl2 & Hrb2 & Hd2 & Hm2).
    exists (l1 ++ l2). rewrite Hl2, Hl1, app_assoc.
    split; [reflexivity|]. split; [congruence|].
    split.
    + intros Hd. destruct (Hd1 Hd) as [Hd' Hr1].
      rewrite List.filter_app, Hr1, (Hd2 Hd'). reflexivity.
    + intros Hm Ha. destruct (Hm1 Hm Ha) as (Hm' & Hp1 & Hpp1).
      destruct (Hm2 Hm') as (Hp2 & Hpp2).
      { rewrite (isAttached_rigidBody c _ Hrb1). exact Ha. }
      rewrite List.filter_app, Hp1, Hp2. split; [reflexivity|].
      eapply poses_preserved_trans; eassumption.
Qed.

(** Which mass setters the reactive block calls, in order. *)
Lemma mass_setters_reactive_block c w h :
  collider c = Some h ->
  List.filter is_mass_setter (emitted (reactive_block c) w)
  = match density (props c) with
    | Some d => if truthy d then [Call_setDensity h d] else []
    | None => []
    end
    ++ match mass (props c) with
       | Some m => if truthy m then [Call_setMass h m] else []
       | None => []
       end
    ++ match massProperties (props c) with
       | Some mp =>
           [Call_setMassProperties h (massProperties_mass mp)
              (positionToVector3 (massProperties_centerOfMass mp))
              (positionToVector3 (massProperties_principalAngularInertia mp))
              (rotationToQuaternion
                 (massProperties_angularInertiaLocalFrame mp))]
       | None => []
       end.
Proof.
  intros E. unfold reactive_block, if_number. rewrite E.
  destruct (density (props c)) as [d|]; [destruct (truthy d)|];
    (destruct (mass (props c)) as [m|]; [destruct (truthy m)|]);
    destruct (massProperties (props c)) as [mp|];
    unfold_setters;
    (erewrite emitted_intro; [|flatten_calls; reflexivity]); reflexivity.
Qed.

(** Which material setters the reactive block calls, in order. *)
Lemma material_setters_reactive_block c w h :
  collider c = Some h ->
  List.filter is_material_setter (emitted (reactive_block c) w)
  = [Call_setActiveCollisionTypes h ActiveCollisionTypes.ALL;
     Call_setRestitution h (restitution (props c) ?? 0%Qc);
     Call_setRestitutionCombineRule h
       (restitutionCombineRule (props c) ?? CoefficientCombineRule.Average);
     Call_setFriction h (friction (props c) ?? Q2Qc 0.7);
     Call_setFrictionCombineRule h
       (frictionCombineRule (props c) ?? CoefficientCombineRule.Average);
     Call_setSensor h (sensor (props c) ?? false)].
Proof.
  intros E. unfold reactive_block, if_number. rewrite E.
  destruct (density (props c)) as [d|]; [destruct (truthy d)|];
    (destruct (mass (props c)) as [m|]; [destruct (truthy m)|]);
    destruct (massProperties (props c)) as [mp|];
    unfold_setters;
    (erewrite emitted_intro; [|flatten_calls; reflexivity]); reflexivity.
Qed.

(** *** Runs of events *)

Lemma run_app es1 es2 c w :
  run (es1 ++ es2) c w
  = run es2 (run es1 c w).1 (exec (run es1 c) w).
Proof.
  revert c w. induction es1 as [|e es1 IH]; intros c w; [reflexivity|].
  cbn [app run]. unfold exec, mbind, M_bind.
  destruct (step c e w) as [c' w']. rewrite IH. reflexivity.
Qed.

Lemma run_single e c w : run [e] c w = step c e w.
Proof.
  cbn [run]. unfold mbind, M_bind. destruct (step c e w); reflexivity.
Qed.

Lemma step_collider_in_world c e w :
  collider_in_world c w ->
  collider_in_world (step c e w).1 (exec (step c e) w).
Proof.
  intros Hwf. destruct e as [|p|o| |]; cbn [step].
  - destruct (mounted c) eqn:Hm; [exact Hwf|].
    rewrite exec_bind, exec_ret, result_bind. cbn [mret M_ret fst].
    rewrite result_onMount.
    intros _ h Hh. cbn [set_mounted set_collider collider] in Hh.
    injection Hh as <-.
    destruct (colliders_onMount c w) as (s & Hw & _). rewrite Hw.
    rewrite lookup_insert_eq. eauto.
  - destruct (destroyed c) eqn:Hd; [exact Hwf|].
    rewrite exec_then_ret, result_then_ret. intros _ h Hh.
    cbn [set_props collider] in Hh.
    destruct (colliders_reactive_block (set_props c p) w h Hh) as (f & Hw & _).
    rewrite Hw. apply lookup_alter_is_Some. apply Hwf; assumption.
  - exact Hwf.
  - destruct (destroyed c) eqn:Hd; [exact Hwf|].
    rewrite exec_then_ret, result_then_ret. intros _ h Hh. unfold useFrame.
    destruct (negb (isAttached c)); [|apply Hwf; assumption].
    destruct (colliders_useFrame_callback c w h Hh) as (f & Hw & _).
    rewrite Hw. apply lookup_alter_is_Some. apply Hwf; assumption.
  - destruct (destroyed c) eqn:Hd; [exact Hwf|].
    rewrite result_then_ret. intros Hd'. discriminate Hd'.
Qed.

Lemma run_collider_in_world es c w :
  collider_in_world c w ->
  collider_in_world (run es c w).1 (exec (run es c) w).
Proof.
  revert c w. induction es as [|e es IH]; intros c w Hwf; [exact Hwf|].
  cbn [run]. rewrite result_bind, exec_bind.
  apply IH, step_collider_in_world, Hwf.
Qed.

(** *** The relative pose *)

Lemma traverseAncestors_fold {S : Type} (callback : Object3D -> S -> S) :
  forall (o : Object3D) (s : S),
    traverseAncestors o callback s
    = fold_left (fun acc a => callback a acc) (ancestors o) s.
Proof.
  fix IH 1. intros [pos quat scale flag [p|]] s; cbn.
  - apply IH.
  - reflexivity.
Qed.

(** The callback keeps the transform of the last flagged node it sees. *)
Lemma fold_captureRigidBody (l : list Object3D) (s : Vector3 * Quaternion) :
  fold_left (fun acc a => captureRigidBody a acc) l s
  = match last (List.filter userData_isRigidBody l) with
    | Some a => (Object3D_getWorldPosition a,
                 Quaternion_invert (Object3D_getWorldQuaternion a))
    | None => s
    end.
Proof.
  revert s. induction l as [|a l IH]; intros s; [reflexivity|].
  cbn [fold_left List.filter]. rewrite IH. unfold captureRigidBody.
  destruct (userData_isRigidBody a); [|reflexivity].
  rewrite last_cons. destruct (last (List.filter userData_isRigidBody l));
    reflexivity.
Qed.

(** With a flagged ancestor, [onMount] expresses the pose in the frame of
    the last flagged ancestor on the way to the root. *)
Lemma relativePose_farthest (o anchor : Object3D) :
  last (flaggedAncestors o) = Some anchor ->
  relativePose o = poseRelativeTo o anchor.
Proof.
  intros Hl. unfold relativePose.
  rewrite traverseAncestors_fold, fold_captureRigidBody.
  unfold flaggedAncestors in Hl. rewrite Hl. reflexivity.
Qed.


Lemma Vector3_sub_zero (v : Vector3) : Vector3_sub v Vector3_new = v.
Proof.
  destruct v as [x y z]. unfold Vector3_sub, Vector3_new. cbn [vx vy vz].
  f_equal; ring.
Qed.

Lemma Quaternion_premultiply_identity (q : Quaternion) :
  Quaternion_premultiply q Quaternion_new = q.
Proof.
  destruct q as [x y z t].
  unfold Quaternion_premultiply, Quaternion_multiplyQuaternions,
    Quaternion_new.
  cbn [qx qy qz qw]. f_equal; ring.
Qed.

Lemma traverseAncestors_unflagged (o : Object3D) (s : Vector3 * Quaternion) :
  Forall (fun a => userData_isRigidBody a = false) (ancestors o) ->
  traverseAncestors o captureRigidBody s = s.
Proof.
  intros Hall. rewrite traverseAncestors_fold.
  revert s. induction Hall as [|a l Ha _ IH]; intros s; [reflexivity|].
  cbn [fold_left]. unfold captureRigidBody at 2. rewrite Ha. apply IH.
Qed.

(** ** Properties of the component *)

(** C1. Take a component without a parent body, from the moment the script
    has set it up, through any sequence of events, and let one more frame
    run.  If the component is initialised and alive at that frame, the
    collider then holds, as translation and rotation, the world position
    and world rotation its node has at that frame. *)
Theorem C1_unattached_frame_sync (p : Props) (o : Object3D) (listeners : bool)
    (es : list Event) (w : World) (h : Collider) :
  let m := run (es ++ [Frame]) (Component_new p o None listeners) in
  collider (m w).1 = Some h ->
  destroyed (m w).1 = false ->
  exists s : Rapier.ColliderState,
    world_colliders (exec m w) !! h = Some s
    /\ Rapier.translation (Rapier.pose s)
       = Some (getWorldPosition (object (m w).1))
    /\ Rapier.rotation (Rapier.pose s)
       = Some (getWorldQuaternion (object (m w).1)).
Proof.
  intros m. subst m. unfold exec at 1. rewrite run_app, run_single.
  set (c0 := Component_new p o None listeners).
  set (c1 := (run es c0 w).1). set (w1 := exec (run es c0) w).
  change (step c1 Frame w1).2 with (exec (step c1 Frame) w1).
  assert (Hwf : collider_in_world c1 w1).
  { apply run_collider_in_world. intros _ h' Hh'. discriminate Hh'. }
  assert (Ha : isAttached c1 = false).
  { destruct (run_extends es c0 w) as (_ & _ & Hrb & _).
    unfold isAttached. fold c1 in Hrb. rewrite Hrb. reflexivity. }
  cbn [step]. destruct (destroyed c1) eqn:Hd.
  { cbn [mret M_ret fst]. intros _ Hd'. congruence. }
  rewrite result_then_ret, exec_then_ret. intros Hh _.
  unfold useFrame. rewrite Ha. cbn [negb].
  destruct (Hwf Hd h Hh) as [s Hs].
  destruct (colliders_useFrame_callback c1 w1 h Hh) as (f & Hw & Hf).
  exists (f s). rewrite Hw, lookup_alter_eq, Hs. split; [reflexivity|].
  apply Hf.
Qed.

(** C2. When a component with a parent body is initialised, it sets the
    collider's pose relative to the parent exactly once.  From then on no
    event (no frame, no reactive update, no change of the node or of its
    ancestors, no unmount) sets any pose of the collider again, and as long
    as the world holds the collider its pose is the one set at
    initialisation. *)
Theorem C2_attached_pose_set_once (c : Component) (w : World) :
  isAttached c = true ->
  mounted c = false ->
  let c1 := (step c Mounted w).1 in
  let w1 := exec (step c Mounted) w in
  exists (h : Collider) (s1 : Rapier.ColliderState),
    collider c1 = Some h
    /\ List.filter is_pose_setter (emitted (step c Mounted) w)
       = [Call_setTranslationWrtParent h (relativePose (object c)).1;
          Call_setRotationWrtParent h (relativePose (object c)).2]
    /\ world_colliders w1 !! h = Some s1
    /\ Rapier.pose s1
       = Rapier.mkPose None None (Some (relativePose (object c)).1)
           (Some (relativePose (object c)).2)
    /\ forall es : list Event,
         List.filter is_pose_setter (emitted (run es c1) w1) = []
         /\ forall s2 : Rapier.ColliderState,
              world_colliders (exec (run es c1) w1) !! h = Some s2 ->
              Rapier.pose s2 = Rapier.pose s1.
Proof.
  intros Ha Hm c1 w1. subst c1 w1.
  replace (emitted (step c Mounted) w) with (emitted (onMount c) w)
    by (unfold emitted; rewrite (exec_step_Mounted c w Hm); reflexivity).
  rewrite (exec_step_Mounted c w Hm), (result_step_Mounted c w Hm).
  destruct (colliders_onMount c w) as (s1 & Hw & Hp). rewrite Ha in Hp.
  exists (fresh (dom (world_colliders w))), s1.
  split; [reflexivity|]. split.
  { erewrite emitted_intro; [|apply calls_onMount]. rewrite Ha. reflexivity. }
  split; [rewrite Hw; apply lookup_insert_eq|]. split; [exact Hp|].
  intros es.
  destruct (run_extends es
              (set_mounted (set_collider c (fresh (dom (world_colliders w)))))
              (exec (onMount c) w)) as (l & Hl & _ & _ & Hpose).
  destruct Hpose as [Hnone Hpres]; [reflexivity|exact Ha|].
  split; [erewrite emitted_intro; eauto|].
  intros s2 Hs2. destruct (Hpres _ _ Hs2) as (s1' & Hs1' & E).
  rewrite Hw, lookup_insert_eq in Hs1'. congruence.
Qed.

(** C3. In the scene with two nested rigid bodies both ancestors of the
    node are flagged.  [onMount] expresses the pose in the frame of the
    outer body, the last one the traversal meets: it hands (4, 0, 0) and the
    half turn to [setTranslationWrtParent] and [setRotationWrtParent].  With
    respect to the nearest flagged ancestor, the inner body, the pose is
    (1, 0, 0) and the identity rotation. *)
Theorem C3_nested_bodies_use_farthest_ancestor (a : Args) (w : World) :
  let c := Component_new (bare_props a) nested_node (Some parent_body) false in
  let h := fresh (dom (world_colliders w)) in
  flaggedAncestors nested_node = [inner_body; outer_body]
  /\ List.filter is_pose_setter (emitted (onMount c) w)
     = [Call_setTranslationWrtParent h (mkVector3 (Q2Qc 4) 0%Qc 0%Qc);
        Call_setRotationWrtParent h half_turn_z]
  /\ relativePose nested_node = poseRelativeTo nested_node outer_body
  /\ relativePose_nearest nested_node
     = Some (mkVector3 1%Qc 0%Qc 0%Qc, Quaternion_new)
  /\ relativePose_nearest nested_node <> Some (relativePose nested_node).
Proof.
  intros c h.
  assert (Hcode : relativePose nested_node
                  = (mkVector3 (Q2Qc 4) 0%Qc 0%Qc, half_turn_z))
    by reflexivity.
  assert (Hspec : relativePose_nearest nested_node
                  = Some (mkVector3 1%Qc 0%Qc 0%Qc, Quaternion_new))
    by reflexivity.
  split; [reflexivity|]. split.
  { erewrite emitted_intro; [|apply calls_onMount].
    cbn [isAttached c Component_new rigidBody object]. rewrite Hcode.
    reflexivity. }
  split; [apply relativePose_farthest; reflexivity|].
  split; [exact Hspec|].
  rewrite Hcode, Hspec. intros H. discriminate H.
Qed.

(** C4 (as amended). When exactly one of [density], [mass] and
    [massProperties] is supplied, and the supplied [density] or [mass] is
    not 0, the reactive block calls the setter of that one, once, with the
    supplied value, and calls neither of the other two mass setters. *)
Theorem C4_exclusive_mass_configuration (c : Component) (w : World)
    (h : Collider) :
  collider c = Some h ->
  (forall d : number,
     density (props c) = Some d -> truthy d = true ->
     mass (props c) = None -> massProperties (props c) = None ->
     List.filter is_mass_setter (emitted (reactive_block c) w)
     = [Call_setDensity h d])
  /\ (forall m : number,
        mass (props c) = Some m -> truthy m = true ->
        density (props c) = None -> massProperties (props c) = None ->
        List.filter is_mass_setter (emitted (reactive_block c) w)
        = [Call_setMass h m])
  /\ (forall mp : MassProperties,
        massProperties (props c) = Some mp ->
        density (props c) = None -> mass (props c) = None ->
        List.filter is_mass_setter (emitted (reactive_block c) w)
        = [Call_setMassProperties h (massProperties_mass mp)
             (positionToVector3 (massProperties_centerOfMass mp))
             (positionToVector3 (massProperties_principalAngularInertia mp))
             (rotationToQuaternion
                (massProperties_angularInertiaLocalFrame mp))]).
Proof.
  intros E. repeat split.
  - intros d Hd Ht Hm Hmp.
    rewrite (mass_setters_reactive_block c w h E), Hd, Ht, Hm, Hmp.
    reflexivity.
  - intros m Hm Ht Hd Hmp.
    rewrite (mass_setters_reactive_block c w h E), Hd, Hm, Ht, Hmp.
    reflexivity.
  - intros mp Hmp Hd Hm.
    rewrite (mass_setters_reactive_block c w h E), Hd, Hm, Hmp.
    reflexivity.
Qed.

(** C5. When no material or behaviour property is supplied, the reactive
    block calls the material setters with restitution 0, friction 0.7, the
    combine rule "average" for both, sensor false and the active collision
    types "all"; and these are the values the collider holds afterwards. *)
Theorem C5_golden_defaults (c : Component) (w : World) (h : Collider)
    (s : Rapier.ColliderState) :
  collider c = Some h ->
  world_colliders w !! h = Some s ->
  no_overrides (props c) ->
  List.filter is_material_setter (emitted (reactive_block c) w)
  = [Call_setActiveCollisionTypes h ActiveCollisionTypes.ALL;
     Call_setRestitution h 0%Qc;
     Call_setRestitutionCombineRule h CoefficientCombineRule.Average;
     Call_setFriction h (Q2Qc 0.7);
     Call_setFrictionCombineRule h CoefficientCombineRule.Average;
     Call_setSensor h false]
  /\ exists s' : Rapier.ColliderState,
       world_colliders (exec (reactive_block c) w) !! h = Some s'
       /\ Rapier.restitution (Rapier.material s') = Some 0%Qc
       /\ Rapier.friction (Rapier.material s') = Some (Q2Qc 0.7)
       /\ Rapier.restitutionCombineRule (Rapier.material s')
          = Some CoefficientCombineRule.Average
       /\ Rapier.frictionCombineRule (Rapier.material s')
          = Some CoefficientCombineRule.Average
       /\ Rapier.sensor (Rapier.material s') = Some false
       /\ Rapier.activeCollisionTypes (Rapier.material s')
          = Some ActiveCollisionTypes.ALL.
Proof.
  intros E Hs (Hr & Hrc & Hf & Hfc & Hsn). split.
  { rewrite (material_setters_reactive_block c w h E).
    rewrite Hr, Hrc, Hf, Hfc, Hsn. reflexivity. }
  destruct (colliders_reactive_block c w h E) as (f & Hw & Hf').
  exists (f s). rewrite Hw, lookup_alter_eq, Hs. split; [reflexivity|].
  destruct (Hf' s) as (_ & H1 & H2 & H3 & H4 & H5 & H6 & _).
  rewrite H1, H2, H3, H4, H5, H6, Hr, Hrc, Hf, Hfc, Hsn. repeat split.
Qed.

(** C6. Before the collider exists, the per-frame callback, the reactive
    block and the teardown callback return without touching the physics
    world, the registries or the log; and a whole sequence of frames,
    reactive updates, moves and unmounts that comes before [onMount] has run
    leaves the world as it was. *)
Theorem C6_uninitialised_is_noop (c : Component) (w : World) :
  collider c = None ->
  useFrame_callback c w = (tt, w)
  /\ reactive_block c w = (tt, w)
  /\ onDestroy c w = (tt, w)
  /\ forall es : list Event, Mounted ∉ es -> exec (run es c) w = w.
Proof.
  intros E. repeat split.
  - apply useFrame_callback_None, E.
  - apply reactive_block_None, E.
  - apply onDestroy_None, E.
  - intros es Hes. apply run_None; assumption.
Qed.

(** C7. Unmounting an initialised component makes exactly three calls, in
    this order: one removal from the world-context registry, one removal
    from the collision-group registry, and one removal from the physics
    world with the wake-up flag set.  Afterwards the collider is in neither
    registry nor in the world, and whatever happens to the instance later,
    no further removal call is made. *)
Theorem C7_unmount_removes_once (c : Component) (w : World) (h : Collider) :
  collider c = Some h ->
  destroyed c = false ->
  let w' := exec (step c Destroyed) w in
  calls w' = calls w ++ [Call_removeColliderFromContext h;
                         Call_removeColliders [h];
                         Call_removeCollider h true]
  /\ (h ∉ context_colliders w')
  /\ (h ∉ collisionGroups_colliders w')
  /\ world_colliders w' !! h = None
  /\ forall es : list Event,
       List.filter is_removal (emitted (run (Destroyed :: es) c) w)
       = [Call_removeColliderFromContext h; Call_removeColliders [h];
          Call_removeCollider h true].
Proof.
  intros E Hd w'. subst w'.
  assert (Hw : exec (step c Destroyed) w = exec (onDestroy c) w).
  { cbn [step]. rewrite Hd. rewrite exec_then_ret. reflexivity. }
  rewrite Hw. destruct (world_onDestroy c w h E) as (Hc & Hx & Hg).
  split; [apply calls_onDestroy, E|].
  split; [rewrite Hx, not_elem_of_difference, elem_of_singleton; auto|].
  split.
  { rewrite Hg, not_elem_of_difference, elem_of_list_to_set.
    rewrite list_elem_of_singleton.
    auto. }
  split; [rewrite Hc; apply lookup_delete_eq|].
  intros es. cbn [run]. unfold emitted. rewrite exec_bind, Hw.
  destruct (run_extends es (step c Destroyed w).1 (exec (onDestroy c) w))
    as (l & Hl & _ & Hrem & _).
  rewrite Hl, (calls_onDestroy c w h E).
  rewrite <- app_assoc, drop_app_length, List.filter_app.
  rewrite Hrem; [reflexivity|].
  cbn [step]. rewrite Hd, result_then_ret. reflexivity.
Qed.

(** C8. Every run of the reactive block sets the contact-force-event
    threshold twice: first to the constant 1, then once more.  When
    [contactForceEventThreshold] is supplied, as [t], the second value is
    [t]; when it is not supplied, the second value is 0.  The second value
    is the one the collider holds afterwards. *)
Theorem C8_threshold_final_value (c : Component) (w : World) (h : Collider) :
  collider c = Some h ->
  (forall t : number,
     contactForceEventThreshold (props c) = Some t ->
     List.filter is_threshold_setter (emitted (reactive_block c) w)
     = [Call_setContactForceEventThreshold h 1%Qc;
        Call_setContactForceEventThreshold h t]
     /\ forall s : Rapier.ColliderState,
          world_colliders w !! h = Some s ->
          exists s' : Rapier.ColliderState,
            world_colliders (exec (reactive_block c) w) !! h = Some s'
            /\ Rapier.contactForceEventThreshold (Rapier.material s')
               = Some t)
  /\ (contactForceEventThreshold (props c) = None ->
      List.filter is_threshold_setter (emitted (reactive_block c) w)
      = [Call_setContactForceEventThreshold h 1%Qc;
         Call_setContactForceEventThreshold h 0%Qc]
      /\ forall s : Rapier.ColliderState,
           world_colliders w !! h = Some s ->
           exists s' : Rapier.ColliderState,
             world_colliders (exec (reactive_block c) w) !! h = Some s'
             /\ Rapier.contactForceEventThreshold (Rapier.material s')
                = Some 0%Qc).
Proof.
  intros E.
  assert (Hcalls :
    List.filter is_threshold_setter (emitted (reactive_block c) w)
    = [Call_setContactForceEventThreshold h 1%Qc;
       Call_setContactForceEventThreshold h
         (contactForceEventThreshold (props c) ?? 0%Qc)]).
  { unfold reactive_block, if_number. rewrite E.
    destruct (density (props c)) as [d|]; [destruct (truthy d)|];
      (destruct (mass (props c)) as [m|]; [destruct (truthy m)|]);
      destruct (massProperties (props c)) as [mp|];
      unfold_setters;
      (erewrite emitted_intro; [|flatten_calls; reflexivity]); reflexivity. }
  assert (Hstate : forall s : Rapier.ColliderState,
    world_colliders w !! h = Some s ->
    exists s' : Rapier.ColliderState,
      world_colliders (exec (reactive_block c) w) !! h = Some s'
      /\ Rapier.contactForceEventThreshold (Rapier.material s')
         = Some (contactForceEventThreshold (props c) ?? 0%Qc)).
  { intros s Hs.
    destruct (colliders_reactive_block c w h E) as (f & Hw & Hf).
    exists (f s). rewrite Hw, lookup_alter_eq, Hs. split; [reflexivity|].
    apply Hf. }
  split.
  - intros t Ht. rewrite Ht in Hcalls, Hstate. split; assumption.
  - intros Hn. rewrite Hn in Hcalls, Hstate. split; assumption.
Qed.

(** C9. A [density] of 0 is treated like no [density] at all, and a [mass]
    of 0 like no [mass] at all: the reactive block makes the same calls and
    leaves the same world, and in particular calls neither [setDensity] nor
    [setMass] for them. *)
Theorem C9_zero_is_unset (c : Component) (w : World) :
  let c_density := set_props c (with_density (props c) (Some 0%Qc)) in
  let c_mass := set_props c (with_mass (props c) (Some 0%Qc)) in
  reactive_block c_density w
  = reactive_block (set_props c (with_density (props c) None)) w
  /\ reactive_block c_mass w
     = reactive_block (set_props c (with_mass (props c) None)) w
  /\ (forall (h : Collider) (n : number),
        ~ In (Call_setDensity h n) (emitted (reactive_block c_density) w))
  /\ (forall (h : Collider) (n : number),
        ~ In (Call_setMass h n) (emitted (reactive_block c_mass) w)).
Proof.
  intros c_density c_mass. split; [reflexivity|]. split; [reflexivity|].
  split; intros h n Hin.
  - assert (Hf : In (Call_setDensity h n)
                   (List.filter is_mass_setter
                      (emitted (reactive_block c_density) w)))
      by (apply filter_In; split; [exact Hin|reflexivity]).
    destruct (collider c) as [h'|] eqn:E.
    + rewrite (mass_setters_reactive_block c_density w h' E) in Hf.
      cbn [c_density set_props props with_density density mass
           massProperties] in Hf.
      change (truthy 0%Qc) with false in Hf.
      destruct (mass (props c)) as [m|]; [destruct (truthy m)|];
        destruct (massProperties (props c)) as [mp|];
        cbn [app In] in Hf; intuition discriminate.
    + unfold emitted, exec in Hf.
      rewrite (reactive_block_None c_density w E), drop_all in Hf.
      destruct Hf.
  - assert (Hf : In (Call_setMass h n)
                   (List.filter is_mass_setter
                      (emitted (reactive_block c_mass) w)))
      by (apply filter_In; split; [exact Hin|reflexivity]).
    destruct (collider c) as [h'|] eqn:E.
    + rewrite (mass_setters_reactive_block c_mass w h' E) in Hf.
      cbn [c_mass set_props props with_mass density mass
           massProperties] in Hf.
      change (truthy 0%Qc) with false in Hf.
      destruct (density (props c)) as [d|]; [destruct (truthy d)|];
        destruct (massProperties (props c)) as [mp|];
        cbn [app In] in Hf; intuition discriminate.
    + unfold emitted, exec in Hf.
      rewrite (reactive_block_None c_mass w E), drop_all in Hf.
      destruct Hf.
Qed.

(** C10. In attached mode, when no ancestor of the node carries the
    rigid-body flag, the traversal leaves the captured position at the zero
    vector and the captured rotation at the identity, and [onMount] hands
    the node's own world position and world rotation, unchanged, to
    [setTranslationWrtParent] and [setRotationWrtParent]. *)
Theorem C10_no_flagged_ancestor (c : Component) (w : World) :
  isAttached c = true ->
  Forall (fun a => userData_isRigidBody a = false) (ancestors (object c)) ->
  traverseAncestors (object c) captureRigidBody (Vector3_new, Quaternion_new)
  = (Vector3_new, Quaternion_new)
  /\ List.filter is_pose_setter (emitted (onMount c) w)
     = [Call_setTranslationWrtParent (fresh (dom (world_colliders w)))
          (Object3D_getWorldPosition (object c));
        Call_setRotationWrtParent (fresh (dom (world_colliders w)))
          (Object3D_getWorldQuaternion (object c))].
Proof.
  intros Ha Hall. split; [apply traverseAncestors_unflagged, Hall|].
  erewrite emitted_intro; [|apply calls_onMount]. rewrite Ha.
  unfold relativePose. rewrite (traverseAncestors_unflagged _ _ Hall).
  rewrite Vector3_sub_zero, Quaternion_premultiply_identity. reflexivity.
Qed.

(** ** Further properties *)

(** *** What each handler does to the world, in full *)

Lemma ColliderState_ext (s t : Rapier.ColliderState) :
  Rapier.attachedTo s = Rapier.attachedTo t ->
  Rapier.pose s = Rapier.pose t ->
  Rapier.material s = Rapier.material t ->
  Rapier.massConfig s = Rapier.massConfig t ->
  s = t.
Proof. destruct s, t. cbn. intros -> -> -> ->. reflexivity. Qed.

Lemma reactive_block_state c w h :
  collider c = Some h ->
  exists f,
    world_colliders (exec (reactive_block c) w)
    = alter f h (world_colliders w)
    /\ context_colliders (exec (reactive_block c) w) = context_colliders w
    /\ collisionGroups_colliders (exec (reactive_block c) w)
       = collisionGroups_colliders w
    /\ forall s,
         Rapier.attachedTo (f s) = Rapier.attachedTo s
         /\ Rapier.pose (f s) = Rapier.pose s
         /\ Rapier.material (f s)
            = Rapier.mkMaterial
                (Some (colliderHasEventListeners c
                       || ((rigidBody c
                            ≫= rigidBody_userData_hasEventListeners)
                           ?? false)))
                (Some ActiveCollisionTypes.ALL)
                (Some (restitution (props c) ?? 0%Qc))
                (Some (restitutionCombineRule (props c)
                       ?? CoefficientCombineRule.Average))
                (Some (friction (props c) ?? Q2Qc 0.7))
                (Some (frictionCombineRule (props c)
                       ?? CoefficientCombineRule.Average))
                (Some (sensor (props c) ?? false))
                (Some (contactForceEventThreshold (props c) ?? 0%Qc))
         /\ Rapier.massConfig (f s)
            = let by_density :=
                match density (props c) with
                | Some d =>
                    if truthy d then Some (Rapier.ByDensity d)
                    else Rapier.massConfig s
                | None => Rapier.massConfig s
                end in
              let by_mass :=
                match mass (props c) with
                | Some m =>
                    if truthy m then Some (Rapier.ByMass m) else by_density
                | None => by_density
                end in
              match massProperties (props c) with
              | Some mp =>
                  Some (Rapier.ByMassProperties
                          (massProperties_mass mp)
                          (positionToVector3
                             (massProperties_centerOfMass mp))
                          (positionToVector3
                             (massProperties_principalAngularInertia mp))
                          (rotationToQuaternion
                             (massProperties_angularInertiaLocalFrame mp)))
              | None => by_mass
              end.
Proof.
  intros E. unfold reactive_block, if_number. rewrite E.
  destruct (density (props c)) as [d|]; [destruct (truthy d)|];
    (destruct (mass (props c)) as [m|]; [destruct (truthy m)|]);
    destruct (massProperties (props c)) as [mp|];
    unfold_setters; autorewrite with world; rewrite ?alter_alter_eq;
    (eexists; split; [reflexivity|]);
    (split; [reflexivity|]); (split; [reflexivity|]);
    intros s; repeat split.
Qed.

Lemma useFrame_callback_state c w h :
  collider c = Some h ->
  exists f,
    world_colliders (exec (useFrame_callback c) w)
    = alter f h (world_colliders w)
    /\ context_colliders (exec (useFrame_callback c) w) = context_colliders w
    /\ collisionGroups_colliders (exec (useFrame_callback c) w)
       = collisionGroups_colliders w
    /\ forall s,
         f s = Rapier.mkColliderState (Rapier.attachedTo s)
                 (Rapier.mkPose (Some (getWorldPosition (object c)))
                    (Some (getWorldQuaternion (object c)))
                    (Rapier.translationWrtParent (Rapier.pose s))
                    (Rapier.rotationWrtParent (Rapier.pose s)))
                 (Rapier.material s) (Rapier.massConfig s).
Proof.
  intros E. unfold useFrame_callback. rewrite E.
  unfold_setters. autorewrite with world. rewrite alter_alter_eq.
  eexists. split; [reflexivity|]. repeat split.
Qed.

Lemma onMount_state c w :
  let h := fresh (dom (world_colliders w)) in
  exists s,
    world_colliders (exec (onMount c) w) = <[h := s]> (world_colliders w)
    /\ context_colliders (exec (onMount c) w) = {[h]} ∪ context_colliders w
    /\ collisionGroups_colliders (exec (onMount c) w)
       = list_to_set [h] ∪ collisionGroups_colliders w
    /\ s = Rapier.mkColliderState (rigidBody c)
             (if isAttached c
              then Rapier.mkPose None None (Some (relativePose (object c)).1)
                     (Some (relativePose (object c)).2)
              else Rapier.mkPose
                     (Some (Object3D_getWorldPosition (object c)))
                     (Some (Object3D_getWorldQuaternion (object c)))
                     None None)
             (Rapier.mkMaterial None None None None None None None None)
             None.
Proof.
  intros h. subst h. unfold onMount.
  destruct (isAttached c); [destruct (relativePose (object c))|];
    unfold_setters; autorewrite with world;
    rewrite !alter_insert_eq; (eexists; split; [reflexivity|]);
    repeat split.
Qed.

Lemma fresh_collider_None (w : World) :
  world_colliders w !! fresh (dom (world_colliders w)) = None.
Proof. apply not_elem_of_dom, is_fresh. Qed.

Lemma untouched_refl w k : untouched w w k.
Proof. repeat split; auto. Qed.

Lemma untouched_trans w0 w1 w2 k :
  untouched w0 w1 k -> untouched w1 w2 k -> untouched w0 w2 k.
Proof.
  intros (H1 & H2 & H3) (K1 & K2 & K3). split; [congruence|].
  split; [rewrite K2; exact H2|rewrite K3; exact H3].
Qed.

Lemma onMount_untouched c w k :
  k <> fresh (dom (world_colliders w)) -> untouched w (exec (onMount c) w) k.
Proof.
  intros Hne. destruct (onMount_state c w) as (s & Hw & Hx & Hg & _).
  split; [rewrite Hw; apply lookup_insert_ne; congruence|].
  split.
  - rewrite Hx, elem_of_union, elem_of_singleton. tauto.
  - rewrite Hg, elem_of_union, elem_of_list_to_set, list_elem_of_singleton.
    tauto.
Qed.

Lemma reactive_block_untouched c w k :
  collider c <> Some k -> untouched w (exec (reactive_block c) w) k.
Proof.
  intros Hne. destruct (collider c) as [h|] eqn:E.
  - destruct (reactive_block_state c w h E) as (f & Hw & Hx & Hg & _).
    split; [rewrite Hw; apply lookup_alter_ne; congruence|].
    rewrite Hx, Hg. tauto.
  - unfold exec. rewrite (reactive_block_None c w E). apply untouched_refl.
Qed.

Lemma useFrame_callback_untouched c w k :
  collider c <> Some k -> untouched w (exec (useFrame_callback c) w) k.
Proof.
  intros Hne. destruct (collider c) as [h|] eqn:E.
  - destruct (useFrame_callback_state c w h E) as (f & Hw & Hx & Hg & _).
    split; [rewrite Hw; apply lookup_alter_ne; congruence|].
    rewrite Hx, Hg. tauto.
  - unfold exec. rewrite (useFrame_callback_None c w E).
    apply untouched_refl.
Qed.

Lemma onDestroy_untouched c w k :
  collider c <> Some k -> untouched w (exec (onDestroy c) w) k.
Proof.
  intros Hne. destruct (collider c) as [h|] eqn:E.
  - destruct (world_onDestroy c w h E) as (Hw & Hx & Hg).
    split; [rewrite Hw; apply lookup_delete_ne; congruence|].
    split.
    + rewrite Hx, elem_of_difference, elem_of_singleton.
      split; [tauto|]. intros Hk. split; [exact Hk|congruence].
    + rewrite Hg, elem_of_difference, elem_of_list_to_set.
      rewrite list_elem_of_singleton.
      split; [tauto|]. intros Hk. split; [exact Hk|congruence].
  - unfold exec. rewrite (onDestroy_None c w E). apply untouched_refl.
Qed.

(** *** Initialisation *)

(** X1. Whatever the mode, [onMount] asks the world for one collider, built
    for the component's shape from the arguments scaled by the node's world
    scale and attached to the parent body the component was given.  The
    handle is one the world did not hold; afterwards the world holds it, with
    no material or mass setter called yet, both registries contain it, and
    nothing else in the world or in the registries has changed. *)
Theorem X1_onMount_creates_and_registers (c : Component) (w : World) :
  let h := fresh (dom (world_colliders w)) in
  let w' := exec (onMount c) w in
  collider (onMount c w).1 = Some h
  /\ world_colliders w !! h = None
  /\ (exists s : Rapier.ColliderState,
        world_colliders w' !! h = Some s
        /\ Rapier.attachedTo s = rigidBody c
        /\ Rapier.material s
           = Rapier.mkMaterial None None None None None None None None
        /\ Rapier.massConfig s = None)
  /\ (h ∈ context_colliders w')
  /\ (h ∈ collisionGroups_colliders w')
  /\ (forall k : Collider, k <> h -> untouched w w' k)
  /\ List.filter is_createCollider (emitted (onMount c) w)
     = [Call_createCollider
          (mkColliderDesc (shape (props c))
             (scaleColliderArgs (shape (props c)) (args (props c))
                (Object3D_getWorldScale (object c))))
          (rigidBody c)].
Proof.
  intros h w'. subst h w'.
  destruct (onMount_state c w) as (s & Hw & Hx & Hg & Hs).
  split; [rewrite result_onMount; reflexivity|].
  split; [apply fresh_collider_None|].
  split.
  { exists s. rewrite Hw, lookup_insert_eq, Hs. repeat split. }
  split; [rewrite Hx, elem_of_union, elem_of_singleton; auto|].
  split.
  { rewrite Hg, elem_of_union, elem_of_list_to_set, list_elem_of_singleton.
    auto. }
  split; [intros k Hk; apply onMount_untouched, Hk|].
  erewrite emitted_intro; [|apply calls_onMount].
  destruct (isAttached c); reflexivity.
Qed.

(** X2. Without a parent body, [onMount] places the collider at the node's
    world position and world rotation straight away, before any frame has
    run, through [setTranslation] and [setRotation]; the pose relative to a
    parent is never set. *)
Theorem X2_onMount_unattached_pose (c : Component) (w : World) :
  isAttached c = false ->
  let h := fresh (dom (world_colliders w)) in
  List.filter is_pose_setter (emitted (onMount c) w)
  = [Call_setTranslation h (Object3D_getWorldPosition (object c));
     Call_setRotation h (Object3D_getWorldQuaternion (object c))]
  /\ exists s : Rapier.ColliderState,
       world_colliders (exec (onMount c) w) !! h = Some s
       /\ Rapier.pose s
          = Rapier.mkPose (Some (Object3D_getWorldPosition (object c)))
              (Some (Object3D_getWorldQuaternion (object c))) None None.
Proof.
  intros Ha h. subst h. split.
  { erewrite emitted_intro; [|apply calls_onMount]. rewrite Ha. reflexivity. }
  destruct (onMount_state c w) as (s & Hw & _ & _ & Hs).
  exists s. rewrite Hw, lookup_insert_eq, Hs, Ha. split; reflexivity.
Qed.

(** X3. Initialisation followed by teardown is a round trip: provided the
    registries did not already hold the handle the world hands out, the
    colliders of the world, the world-context registry and the
    collision-group registry are afterwards exactly what they were before. *)
Theorem X3_mount_unmount_round_trip (c : Component) (w : World) :
  fresh (dom (world_colliders w)) ∉ context_colliders w ->
  fresh (dom (world_colliders w)) ∉ collisionGroups_colliders w ->
  let w2 := exec (onDestroy (onMount c w).1) (exec (onMount c) w) in
  world_colliders w2 = world_colliders w
  /\ context_colliders w2 = context_colliders w
  /\ collisionGroups_colliders w2 = collisionGroups_colliders w.
Proof.
  intros Hx Hg w2. subst w2.
  set (h := fresh (dom (world_colliders w))) in *.
  assert (E : collider (onMount c w).1 = Some h)
    by (rewrite result_onMount; reflexivity).
  destruct (world_onDestroy (onMount c w).1 (exec (onMount c) w) h E)
    as (Dw & Dx & Dg).
  destruct (onMount_state c w) as (s & Mw & Mx & Mg & _). fold h in Mw, Mx, Mg.
  rewrite Dw, Dx, Dg, Mw, Mx, Mg. split.
  { rewrite delete_insert_eq. apply delete_id, fresh_collider_None. }
  split; apply set_eq; intros k.
  - rewrite elem_of_difference, elem_of_union, elem_of_singleton.
    split; [tauto|]. intros Hk. split; [auto|]. intros ->. auto.
  - rewrite elem_of_difference, elem_of_union, elem_of_list_to_set.
    rewrite list_elem_of_singleton.
    split; [tauto|]. intros Hk. split; [auto|]. intros ->. auto.
Qed.

(** *** The reactive block *)

(** X4. Applying the same properties twice leaves the colliders of the world
    and both registries exactly as applying them once does: nothing
    accumulates from one run of the reactive block to the next. *)
Theorem X4_reactive_block_idempotent (c : Component) (w : World) :
  let w1 := exec (reactive_block c) w in
  let w2 := exec (reactive_block c) w1 in
  world_colliders w2 = world_colliders w1
  /\ context_colliders w2 = context_colliders w1
  /\ collisionGroups_colliders w2 = collisionGroups_colliders w1.
Proof.
  intros w1 w2. subst w1 w2. destruct (collider c) as [h|] eqn:E.
  - destruct (reactive_block_state c w h E) as (f & Hw & Hx & Hg & Hf).
    destruct (reactive_block_state c (exec (reactive_block c) w) h E)
      as (f2 & Hw2 & Hx2 & Hg2 & Hf2).
    split; [|split; assumption].
    rewrite Hw2, Hw, alter_alter_eq. apply alter_ext. intros s _. cbn.
    destruct (Hf s) as (A1 & P1 & M1 & Q1).
    destruct (Hf2 (f s)) as (A2 & P2 & M2 & Q2).
    apply ColliderState_ext; [assumption|assumption|congruence|].
    rewrite Q2, Q1. cbv zeta.
    destruct (massProperties (props c)); [reflexivity|].
    destruct (mass (props c)) as [m|]; [destruct (truthy m)|];
      try reflexivity;
      (destruct (density (props c)) as [d|]; [destruct (truthy d)|]);
      reflexivity.
  - unfold exec. rewrite !(reactive_block_None c _ E). auto.
Qed.

(** X5. The reactive block changes nothing but the material and mass
    configuration of the component's own collider: the registries are as
    before, the world holds the same handles, every collider keeps its pose
    and its parent body, and every collider other than the component's own
    is exactly as it was. *)
Theorem X5_reactive_block_only_own_parameters (c : Component) (w : World) :
  let w' := exec (reactive_block c) w in
  context_colliders w' = context_colliders w
  /\ collisionGroups_colliders w' = collisionGroups_colliders w
  /\ dom (world_colliders w') = dom (world_colliders w)
  /\ forall (k : Collider) (s : Rapier.ColliderState),
       world_colliders w !! k = Some s ->
       exists s' : Rapier.ColliderState,
         world_colliders w' !! k = Some s'
         /\ Rapier.pose s' = Rapier.pose s
         /\ Rapier.attachedTo s' = Rapier.attachedTo s
         /\ (collider c <> Some k -> s' = s).
Proof.
  intros w'. subst w'. destruct (collider c) as [h|] eqn:E.
  - destruct (reactive_block_state c w h E) as (f & Hw & Hx & Hg & Hf).
    rewrite Hw, Hx, Hg. repeat split; [apply dom_alter_L|].
    intros k s Hk. destruct (decide (h = k)) as [->|Hne].
    + exists (f s). rewrite lookup_alter_eq, Hk.
      destruct (Hf s) as (A & P & _). repeat split; auto. congruence.
    + exists s. rewrite lookup_alter_ne by exact Hne. auto.
  - unfold exec. rewrite (reactive_block_None c w E). cbn [snd].
    repeat split. intros k s Hk. exists s. auto.
Qed.

(** X6. The reactive block never resets the mass configuration.  When
    none of the three is applied, that is, [density] and [mass] are each
    not supplied or 0 and [massProperties] is not supplied, the block calls
    no mass setter, and the collider keeps the mass configuration it held,
    for instance a density applied by an earlier run. *)
Theorem X6_unset_mass_is_not_reset (c : Component) (w : World) (h : Collider)
    (s : Rapier.ColliderState) :
  collider c = Some h ->
  world_colliders w !! h = Some s ->
  density (props c) = None \/ density (props c) = Some 0%Qc ->
  mass (props c) = None \/ mass (props c) = Some 0%Qc ->
  massProperties (props c) = None ->
  List.filter is_mass_setter (emitted (reactive_block c) w) = []
  /\ exists s' : Rapier.ColliderState,
       world_colliders (exec (reactive_block c) w) !! h = Some s'
       /\ Rapier.massConfig s' = Rapier.massConfig s.
Proof.
  intros E Hs Hd Hm Hmp. split.
  { rewrite (mass_setters_reactive_block c w h E), Hmp.
    destruct Hd as [-> | ->], Hm as [-> | ->]; reflexivity. }
  destruct (reactive_block_state c w h E) as (f & Hw & _ & _ & Hf).
  exists (f s). rewrite Hw, lookup_alter_eq, Hs. split; [reflexivity|].
  destruct (Hf s) as (_ & _ & _ & Q). rewrite Q, Hmp. cbv zeta.
  destruct Hd as [-> | ->], Hm as [-> | ->]; reflexivity.
Qed.

(** X7. When [density] and [mass] are both supplied and non-zero, the
    reactive block calls [setDensity] and then [setMass], and the collider
    ends up configured by the mass: the setter called last decides.  When
    [massProperties] is supplied as well, [setMassProperties] is called
    after the other two, and the collider ends up configured by the mass
    properties. *)
Theorem X7_last_mass_setter_wins (c : Component) (w : World)
    (h : Collider) (s : Rapier.ColliderState) (d m : number) :
  collider c = Some h ->
  world_colliders w !! h = Some s ->
  density (props c) = Some d -> truthy d = true ->
  mass (props c) = Some m -> truthy m = true ->
  (massProperties (props c) = None ->
   List.filter is_mass_setter (emitted (reactive_block c) w)
   = [Call_setDensity h d; Call_setMass h m]
   /\ exists s' : Rapier.ColliderState,
        world_colliders (exec (reactive_block c) w) !! h = Some s'
        /\ Rapier.massConfig s' = Some (Rapier.ByMass m))
  /\ (forall mp : MassProperties,
        massProperties (props c) = Some mp ->
        List.filter is_mass_setter (emitted (reactive_block c) w)
        = [Call_setDensity h d; Call_setMass h m;
           Call_setMassProperties h (massProperties_mass mp)
             (positionToVector3 (massProperties_centerOfMass mp))
             (positionToVector3 (massProperties_principalAngularInertia mp))
             (rotationToQuaternion
                (massProperties_angularInertiaLocalFrame mp))]
        /\ exists s' : Rapier.ColliderState,
             world_colliders (exec (reactive_block c) w) !! h = Some s'
             /\ Rapier.massConfig s'
                = Some (Rapier.ByMassProperties (massProperties_mass mp)
                          (positionToVector3
                             (massProperties_centerOfMass mp))
                          (positionToVector3
                             (massProperties_principalAngularInertia mp))
                          (rotationToQuaternion
                             (massProperties_angularInertiaLocalFrame mp)))).
Proof.
  intros E Hs Hd Td Hm Tm.
  destruct (reactive_block_state c w h E) as (f & Hw & _ & _ & Hf).
  destruct (Hf s) as (_ & _ & _ & Q). cbv zeta in Q.
  rewrite Hd, Td, Hm, Tm in Q.
  split.
  - intros Hmp. split.
    { rewrite (mass_setters_reactive_block c w h E), Hd, Td, Hm, Tm, Hmp.
      reflexivity. }
    exists (f s). rewrite Hw, lookup_alter_eq, Hs. split; [reflexivity|].
    rewrite Q, Hmp. reflexivity.
  - intros mp Hmp. split.
    { rewrite (mass_setters_reactive_block c w h E), Hd, Td, Hm, Tm, Hmp.
      reflexivity. }
    exists (f s). rewrite Hw, lookup_alter_eq, Hs. split; [reflexivity|].
    rewrite Q, Hmp. reflexivity.
Qed.

(** X8. The material values the reactive block sets itself (active
    collision types, restitution, friction, the two combine rules, the
    sensor flag and the contact-force-event threshold) depend, after the
    block, on the component's properties alone, not on what the collider
    held before: run from two worlds that hold the collider in different
    states, the block leaves the same seven values in both. *)
Theorem X8_material_from_properties_only (c : Component) (w1 w2 : World)
    (h : Collider) (s1 s2 : Rapier.ColliderState) :
  collider c = Some h ->
  world_colliders w1 !! h = Some s1 ->
  world_colliders w2 !! h = Some s2 ->
  exists t1 t2 : Rapier.ColliderState,
    world_colliders (exec (reactive_block c) w1) !! h = Some t1
    /\ world_colliders (exec (reactive_block c) w2) !! h = Some t2
    /\ Rapier.activeCollisionTypes (Rapier.material t1)
       = Rapier.activeCollisionTypes (Rapier.material t2)
    /\ Rapier.restitution (Rapier.material t1)
       = Rapier.restitution (Rapier.material t2)
    /\ Rapier.restitutionCombineRule (Rapier.material t1)
       = Rapier.restitutionCombineRule (Rapier.material t2)
    /\ Rapier.friction (Rapier.material t1)
       = Rapier.friction (Rapier.material t2)
    /\ Rapier.frictionCombineRule (Rapier.material t1)
       = Rapier.frictionCombineRule (Rapier.material t2)
    /\ Rapier.sensor (Rapier.material t1)
       = Rapier.sensor (Rapier.material t2)
    /\ Rapier.contactForceEventThreshold (Rapier.material t1)
       = Rapier.contactForceEventThreshold (Rapier.material t2).
Proof.
  intros E H1 H2.
  destruct (colliders_reactive_block c w1 h E) as (f1 & Hw1 & Hf1).
  destruct (colliders_reactive_block c w2 h E) as (f2 & Hw2 & Hf2).
  exists (f1 s1), (f2 s2).
  rewrite Hw1, Hw2, !lookup_alter_eq, H1, H2.
  split; [reflexivity|]. split; [reflexivity|].
  destruct (Hf1 s1) as (_ & A1 & A2 & A3 & A4 & A5 & A6 & A7).
  destruct (Hf2 s2) as (_ & B1 & B2 & B3 & B4 & B5 & B6 & B7).
  repeat split; congruence.
Qed.

(** *** The frame callback *)

(** X9. The frame callback replaces the translation and the rotation of the
    component's collider and nothing else: that collider keeps its material,
    its mass configuration, its parent body and its pose relative to the
    parent; the world holds the same handles, every other collider is as it
    was, and both registries are exactly as before. *)
Theorem X9_frame_callback_only_moves_own_collider (c : Component) (w : World)
    (h : Collider) (s : Rapier.ColliderState) :
  collider c = Some h ->
  world_colliders w !! h = Some s ->
  let w' := exec (useFrame_callback c) w in
  world_colliders w' !! h
  = Some (Rapier.mkColliderState (Rapier.attachedTo s)
            (Rapier.mkPose (Some (getWorldPosition (object c)))
               (Some (getWorldQuaternion (object c)))
               (Rapier.translationWrtParent (Rapier.pose s))
               (Rapier.rotationWrtParent (Rapier.pose s)))
            (Rapier.material s) (Rapier.massConfig s))
  /\ (forall k : Collider,
        k <> h -> world_colliders w' !! k = world_colliders w !! k)
  /\ dom (world_colliders w') = dom (world_colliders w)
  /\ context_colliders w' = context_colliders w
  /\ collisionGroups_colliders w' = collisionGroups_colliders w.
Proof.
  intros E Hs w'. subst w'.
  destruct (useFrame_callback_state c w h E) as (f & Hw & Hx & Hg & Hf).
  rewrite Hw, Hx, Hg.
  split; [rewrite lookup_alter_eq, Hs, <- Hf; reflexivity|].
  split; [intros k Hk; apply lookup_alter_ne; congruence|].
  split; [apply dom_alter_L|]. split; reflexivity.
Qed.

(** *** The pose relative to the parent body, in general *)

(** X10. In attached mode, whenever the node has a flagged ancestor,
    [onMount] hands the setters the node's pose in the frame of the last
    flagged ancestor on the way to the root: world position minus that
    ancestor's world position, world rotation premultiplied by the conjugate
    of that ancestor's world rotation. *)
Theorem X10_relative_pose_uses_last_flagged_ancestor (c : Component)
    (w : World) (anchor : Object3D) :
  isAttached c = true ->
  last (flaggedAncestors (object c)) = Some anchor ->
  List.filter is_pose_setter (emitted (onMount c) w)
  = [Call_setTranslationWrtParent (fresh (dom (world_colliders w)))
       (poseRelativeTo (object c) anchor).1;
     Call_setRotationWrtParent (fresh (dom (world_colliders w)))
       (poseRelativeTo (object c) anchor).2].
Proof.
  intros Ha Hl. erewrite emitted_intro; [|apply calls_onMount].
  rewrite Ha, (relativePose_farthest _ _ Hl). reflexivity.
Qed.





(** *** Invariants of the lifecycle *)

(** An instance that was initialised and then unmounted does nothing any
    more. *)
Lemma step_dead c e w :
  destroyed c = true -> mounted c = true ->
  exec (step c e) w = w
  /\ destroyed (step c e w).1 = true
  /\ mounted (step c e w).1 = true
  /\ collider (step c e w).1 = collider c.
Proof.
  intros Hd Hm. destruct e as [|p|o| |]; cbn [step]; rewrite ?Hd, ?Hm;
    repeat split; assumption.
Qed.

Lemma run_dead es c w :
  destroyed c = true -> mounted c = true ->
  exec (run es c) w = w /\ collider (run es c w).1 = collider c.
Proof.
  revert c w. induction es as [|e es IH]; intros c w Hd Hm; [auto|].
  cbn [run]. rewrite exec_bind, result_bind.
  destruct (step_dead c e w Hd Hm) as (Hw & Hd' & Hm' & Hc).
  rewrite Hw. destruct (IH (step c e w).1 w Hd' Hm') as (Hw' & Hc').
  split; congruence.
Qed.

Lemma keeps_apart_not_own w0 col c w k :
  keeps_apart w0 col c w -> is_Some (world_colliders w0 !! k) ->
  col <> Some k -> collider c <> Some k.
Proof.
  intros [_ Hown] [s Hs] Hne E. destruct (Hown k E) as [Hc|Hn].
  - congruence.
  - rewrite Hn in Hs. discriminate.
Qed.

Lemma step_keeps_apart w0 col c e w :
  keeps_apart w0 col c w ->
  keeps_apart w0 col (step c e w).1 (exec (step c e) w).
Proof.
  intros Hk. pose proof Hk as [Hold Hown].
  destruct e as [|p|o| |]; cbn [step].
  - destruct (mounted c) eqn:Hm; [exact Hk|].
    rewrite exec_bind, exec_ret, result_bind. cbn [mret M_ret fst].
    rewrite result_onMount. split.
    + intros k Hs Hne. eapply untouched_trans; [apply Hold; assumption|].
      apply onMount_untouched. intros ->.
      destruct (Hold _ Hs Hne) as (Hl & _). rewrite fresh_collider_None in Hl.
      rewrite <- Hl in Hs. destruct Hs as [? Hs]. discriminate Hs.
    + intros h Hh. cbn [set_mounted set_collider collider] in Hh.
      injection Hh as <-.
      destruct (decide (col = Some (fresh (dom (world_colliders w)))))
        as [Hc|Hc]; [left; exact Hc|right].
      destruct (world_colliders w0 !! fresh (dom (world_colliders w)))
        as [s|] eqn:Hs; [|reflexivity].
      destruct (Hold _ (ex_intro _ s Hs) Hc) as (Hl & _).
      rewrite fresh_collider_None, Hs in Hl. discriminate Hl.
  - destruct (destroyed c); [exact Hk|].
    rewrite exec_then_ret, result_then_ret. split; [|exact Hown].
    intros k Hs Hne. eapply untouched_trans; [apply Hold; assumption|].
    apply reactive_block_untouched.
    apply (keeps_apart_not_own w0 col c w k Hk Hs Hne).
  - exact Hk.
  - destruct (destroyed c); [exact Hk|].
    rewrite exec_then_ret, result_then_ret. split; [|exact Hown].
    intros k Hs Hne. eapply untouched_trans; [apply Hold; assumption|].
    unfold useFrame. destruct (negb (isAttached c));
      [|rewrite exec_ret; apply untouched_refl].
    apply useFrame_callback_untouched.
    apply (keeps_apart_not_own w0 col c w k Hk Hs Hne).
  - destruct (destroyed c); [exact Hk|].
    rewrite exec_then_ret, result_then_ret. split; [|exact Hown].
    intros k Hs Hne. eapply untouched_trans; [apply Hold; assumption|].
    apply onDestroy_untouched.
    apply (keeps_apart_not_own w0 col c w k Hk Hs Hne).
Qed.

Lemma run_keeps_apart w0 col es c w :
  keeps_apart w0 col c w ->
  keeps_apart w0 col (run es c w).1 (exec (run es c) w).
Proof.
  revert c w. induction es as [|e es IH]; intros c w Hk; [exact Hk|].
  cbn [run]. rewrite result_bind, exec_bind.
  apply IH, step_keeps_apart, Hk.
Qed.

(** X14. A component touches no collider but the one its [collider]
    variable holds.  Start from any state of the instance, in particular
    one in which a collider was supplied from outside through the exported
    [collider], and let any events follow: every collider the world held at
    that point, other than the one the instance held, is afterwards in
    exactly the same state, and is in each registry exactly if it was
    before. *)
Theorem X14_other_colliders_untouched (c : Component) (es : list Event)
    (w : World) (k : Collider) :
  is_Some (world_colliders w !! k) ->
  collider c <> Some k ->
  untouched w (exec (run es c) w) k.
Proof.
  intros Hs Hne.
  assert (H0 : keeps_apart w (collider c) c w).
  { split; [intros; apply untouched_refl|]. intros h Hh. left. exact Hh. }
  destruct (run_keeps_apart w (collider c) es c w H0) as [Hold _].
  apply Hold; assumption.
Qed.

Lemma step_registered c e w :
  registered c w -> registered (step c e w).1 (exec (step c e) w).
Proof.
  intros Hr. destruct e as [|p|o| |]; cbn [step].
  - destruct (mounted c) eqn:Hm; [exact Hr|].
    rewrite exec_bind, exec_ret, result_bind. cbn [mret M_ret fst].
    rewrite result_onMount. intros _ h Hh.
    cbn [set_mounted set_collider collider] in Hh. injection Hh as <-.
    destruct (onMount_state c w) as (s & Hw & Hx & Hg & _).
    rewrite Hw, Hx, Hg, lookup_insert_eq. split; [eauto|].
    split; [rewrite elem_of_union, elem_of_singleton; auto|].
    rewrite elem_of_union, elem_of_list_to_set, list_elem_of_singleton. auto.
  - destruct (destroyed c) eqn:Hd; [exact Hr|].
    rewrite exec_then_ret, result_then_ret. intros _ h Hh.
    cbn [set_props collider] in Hh.
    destruct (reactive_block_state (set_props c p) w h Hh)
      as (f & Hw & Hx & Hg & _).
    rewrite Hw, Hx, Hg. destruct (Hr Hd h Hh) as (H1 & H2 & H3).
    split; [apply lookup_alter_is_Some, H1|auto].
  - exact Hr.
  - destruct (destroyed c) eqn:Hd; [exact Hr|].
    rewrite exec_then_ret, result_then_ret. intros _ h Hh. unfold useFrame.
    destruct (negb (isAttached c)); [|apply Hr; assumption].
    destruct (useFrame_callback_state c w h Hh) as (f & Hw & Hx & Hg & _).
    rewrite Hw, Hx, Hg. destruct (Hr Hd h Hh) as (H1 & H2 & H3).
    split; [apply lookup_alter_is_Some, H1|auto].
  - destruct (destroyed c) eqn:Hd; [exact Hr|].
    rewrite result_then_ret. intros Hd'. discriminate Hd'.
Qed.

Lemma run_registered es c w :
  registered c w -> registered (run es c w).1 (exec (run es c) w).
Proof.
  revert c w. induction es as [|e es IH]; intros c w Hr; [exact Hr|].
  cbn [run]. rewrite result_bind, exec_bind.
  apply IH, step_registered, Hr.
Qed.

(** X15. As long as the component is initialised and not unmounted, its
    collider is held by the physics world and by both registries, whatever
    frames, reactive updates and moves have happened. *)
Theorem X15_live_collider_is_registered (p : Props) (o : Object3D)
    (body : option RigidBody) (listeners : bool) (es : list Event)
    (w : World) (h : Collider) :
  let m := run es (Component_new p o body listeners) in
  collider (m w).1 = Some h ->
  destroyed (m w).1 = false ->
  is_Some (world_colliders (exec m w) !! h)
  /\ h ∈ context_colliders (exec m w)
  /\ h ∈ collisionGroups_colliders (exec m w).
Proof.
  intros m Hh Hd. subst m.
  apply (run_registered es (Component_new p o body listeners) w);
    [|exact Hd|exact Hh].
  intros _ h' Hh'. discriminate Hh'.
Qed.

(** X16. Once an initialised component has been unmounted, its collider
    stays out of the physics world and out of both registries, whatever
    events follow. *)
Theorem X16_removed_collider_stays_removed (c : Component) (w : World)
    (h : Collider) (es : list Event) :
  collider c = Some h ->
  mounted c = true ->
  destroyed c = false ->
  let w' := exec (run (Destroyed :: es) c) w in
  world_colliders w' !! h = None
  /\ (h ∉ context_colliders w')
  /\ (h ∉ collisionGroups_colliders w').
Proof.
  intros E Hm Hd w'. subst w'. cbn [run]. rewrite exec_bind.
  assert (R : (step c Destroyed w).1 = set_destroyed c)
    by (cbn [step]; rewrite Hd; apply result_then_ret).
  assert (X : exec (step c Destroyed) w = exec (onDestroy c) w)
    by (cbn [step]; rewrite Hd; apply exec_then_ret).
  rewrite R, X.
  destruct (run_dead es (set_destroyed c) (exec (onDestroy c) w))
    as [Hw _]; [reflexivity|exact Hm|].
  rewrite Hw. destruct (world_onDestroy c w h E) as (Dw & Dx & Dg).
  rewrite Dw, Dx, Dg. split; [apply lookup_delete_eq|].
  split.
  - rewrite not_elem_of_difference, elem_of_singleton. auto.
  - rewrite not_elem_of_difference, elem_of_list_to_set.
    rewrite list_elem_of_singleton. auto.
Qed.

(** X17. [onMount] does not look at whether the component is still there.
    If the component is unmounted before the deferred body of [onMount]
    runs, the teardown finds no collider and removes nothing; the body then
    creates and registers the collider all the same, and no later event
    ever removes it from the world or from the registries. *)
Theorem X17_unmount_before_onMount_leaves_collider (p : Props)
    (o : Object3D) (body : option RigidBody) (listeners : bool)
    (es : list Event) (w : World) :
  let h := fresh (dom (world_colliders w)) in
  let m := run (Destroyed :: Mounted :: es)
             (Component_new p o body listeners) in
  is_Some (world_colliders (exec m w) !! h)
  /\ h ∈ context_colliders (exec m w)
  /\ h ∈ collisionGroups_colliders (exec m w)
  /\ List.filter is_removal (emitted m w) = [].
Proof.
  intros h m. subst h m.
  set (c0 := Component_new p o body listeners).
  set (c1 := set_destroyed c0).
  set (c2 := set_mounted (set_collider c1 (fresh (dom (world_colliders w))))).
  assert (R1 : (step c0 Destroyed w).1 = c1) by reflexivity.
  assert (X1 : exec (step c0 Destroyed) w = w) by reflexivity.
  assert (R2 : (step c1 Mounted w).1 = c2)
    by (apply result_step_Mounted; reflexivity).
  assert (X2 : exec (step c1 Mounted) w = exec (onMount c1) w)
    by (apply exec_step_Mounted; reflexivity).
  assert (Hrun : exec (run (Destroyed :: Mounted :: es) c0) w
                 = exec (onMount c1) w).
  { cbn [run]. rewrite exec_bind, R1, X1, exec_bind, R2, X2.
    apply (run_dead es c2 (exec (onMount c1) w)); reflexivity. }
  unfold emitted. rewrite Hrun.
  destruct (onMount_state c1 w) as (s & Hw & Hx & Hg & _).
  rewrite Hw, Hx, Hg, lookup_insert_eq. split; [eauto|].
  split; [rewrite elem_of_union, elem_of_singleton; auto|].
  split.
  { rewrite elem_of_union, elem_of_list_to_set, list_elem_of_singleton.
    auto. }
  fold (emitted (onMount c1) w).
  erewrite emitted_intro; [|apply calls_onMount].
  destruct (isAttached c1); reflexivity.
Qed.

End Component.

(** ** The theorems at concrete inputs

    The shape arguments are instantiated by [unit], and so are the position
    and rotation notations. *)

Lemma C1_unattached_frame_sync_witness :
  let m := run no_scaling origin_of identity_of
             ([Mounted; Frame; Moved moved_node] ++ [Frame])
             (Component_new (bare_props tt) plain_node None false) in
  collider (m empty_world).1 = Some 0
  /\ destroyed (m empty_world).1 = false
  /\ exists s : Rapier.ColliderState,
       world_colliders (exec m empty_world) !! 0 = Some s
       /\ Rapier.translation (Rapier.pose s)
          = Some (getWorldPosition (object (m empty_world).1))
       /\ Rapier.rotation (Rapier.pose s)
          = Some (getWorldQuaternion (object (m empty_world).1)).
Proof.
  intros m. split; [reflexivity|]. split; [reflexivity|].
  apply (C1_unattached_frame_sync no_scaling origin_of identity_of
           (bare_props tt) plain_node false [Mounted; Frame; Moved moved_node]
           empty_world 0); reflexivity.
Defined.

Lemma C2_attached_pose_set_once_witness :
  let c := Component_new (bare_props tt) nested_node (Some parent_body) false in
  let c1 := (step no_scaling origin_of identity_of c Mounted empty_world).1 in
  let w1 := exec (step no_scaling origin_of identity_of c Mounted)
              empty_world in
  isAttached c = true
  /\ mounted c = false
  /\ exists (h : Collider) (s1 : Rapier.ColliderState),
       collider c1 = Some h
       /\ List.filter is_pose_setter
            (emitted (step no_scaling origin_of identity_of c Mounted)
               empty_world)
          = [Call_setTranslationWrtParent h (relativePose (object c)).1;
             Call_setRotationWrtParent h (relativePose (object c)).2]
       /\ world_colliders w1 !! h = Some s1
       /\ Rapier.pose s1
          = Rapier.mkPose None None (Some (relativePose (object c)).1)
              (Some (relativePose (object c)).2)
       /\ forall es : list Event,
            List.filter is_pose_setter
              (emitted (run no_scaling origin_of identity_of es c1) w1) = []
            /\ forall s2 : Rapier.ColliderState,
                 world_colliders
                   (exec (run no_scaling origin_of identity_of es c1) w1)
                 !! h = Some s2 ->
                 Rapier.pose s2 = Rapier.pose s1.
Proof.
  intros c c1 w1. split; [reflexivity|]. split; [reflexivity|].
  apply (C2_attached_pose_set_once no_scaling origin_of identity_of c
           empty_world); reflexivity.
Defined.

Lemma C4_exclusive_mass_configuration_witness :
  let c := set_collider
             (Component_new (with_density (bare_props tt) (Some (Q2Qc 2.5)))
                plain_node None false) 0 in
  collider c = Some 0
  /\ density (props c) = Some (Q2Qc 2.5)
  /\ truthy (Q2Qc 2.5) = true
  /\ mass (props c) = None
  /\ massProperties (props c) = None
  /\ List.filter is_mass_setter
       (emitted (reactive_block origin_of identity_of c) empty_world)
     = [Call_setDensity 0 (Q2Qc 2.5)].
Proof.
  intros c. repeat (split; [reflexivity|]).
  apply (proj1 (C4_exclusive_mass_configuration origin_of identity_of c
                  empty_world 0 eq_refl)); reflexivity.
Defined.

(** C4, as stated, fails when the one supplied value is 0: [density] is
    supplied, [mass] and [massProperties] are not, and the reactive block
    calls no mass setter at all, so the supplied density is not applied. *)
Lemma C4_zero_density_not_applied :
  let c := set_collider
             (Component_new (with_density (bare_props tt) (Some 0%Qc))
                plain_node None false) 0 in
  collider c = Some 0
  /\ density (props c) = Some 0%Qc
  /\ mass (props c) = None
  /\ massProperties (props c) = None
  /\ List.filter is_mass_setter
       (emitted (reactive_block origin_of identity_of c) empty_world) = []
  /\ ~ (forall (c' : @Component unit unit unit) (w : @World unit)
           (h : Collider) (d : number),
          collider c' = Some h ->
          density (props c') = Some d ->
          mass (props c') = None ->
          massProperties (props c') = None ->
          List.filter is_mass_setter
            (emitted (reactive_block origin_of identity_of c') w)
          = [Call_setDensity h d]).
Proof.
  intros c. repeat (split; [reflexivity|]).
  intros Hclaim.
  specialize (Hclaim c empty_world 0 0%Qc eq_refl eq_refl eq_refl eq_refl).
  discriminate Hclaim.
Qed.

Lemma C5_golden_defaults_witness :
  let c := set_collider
             (Component_new (bare_props tt) plain_node None false) 0 in
  let w := mkWorld {[0 := Rapier.ColliderState_new None]} ∅ ∅ [] in
  collider c = Some 0
  /\ world_colliders w !! 0 = Some (Rapier.ColliderState_new None)
  /\ no_overrides (props c)
  /\ List.filter is_material_setter
       (emitted (reactive_block origin_of identity_of c) w)
     = [Call_setActiveCollisionTypes 0 ActiveCollisionTypes.ALL;
        Call_setRestitution 0 0%Qc;
        Call_setRestitutionCombineRule 0 CoefficientCombineRule.Average;
        Call_setFriction 0 (Q2Qc 0.7);
        Call_setFrictionCombineRule 0 CoefficientCombineRule.Average;
        Call_setSensor 0 false]
  /\ exists s' : Rapier.ColliderState,
       world_colliders (exec (reactive_block origin_of identity_of c) w) !! 0
       = Some s'
       /\ Rapier.restitution (Rapier.material s') = Some 0%Qc
       /\ Rapier.friction (Rapier.material s') = Some (Q2Qc 0.7)
       /\ Rapier.restitutionCombineRule (Rapier.material s')
          = Some CoefficientCombineRule.Average
       /\ Rapier.frictionCombineRule (Rapier.material s')
          = Some CoefficientCombineRule.Average
       /\ Rapier.sensor (Rapier.material s') = Some false
       /\ Rapier.activeCollisionTypes (Rapier.material s')
          = Some ActiveCollisionTypes.ALL.
Proof.
  intros c w. split; [reflexivity|]. split; [reflexivity|].
  split; [repeat split|].
  apply (C5_golden_defaults origin_of identity_of c w 0
           (Rapier.ColliderState_new None));
    [reflexivity|reflexivity|repeat split].
Defined.

Lemma C6_uninitialised_is_noop_witness :
  let c := Component_new (bare_props tt) plain_node None false in
  collider c = None
  /\ useFrame_callback c empty_world = (tt, empty_world)
  /\ reactive_block origin_of identity_of c empty_world = (tt, empty_world)
  /\ onDestroy c empty_world = (tt, empty_world)
  /\ forall es : list Event,
       Mounted ∉ es ->
       exec (run no_scaling origin_of identity_of es c) empty_world
       = empty_world.
Proof.
  intros c. split; [reflexivity|].
  apply (C6_uninitialised_is_noop no_scaling origin_of identity_of c
           empty_world); reflexivity.
Defined.

Lemma C7_unmount_removes_once_witness :
  let c0 :=
    Component_new (@bare_props unit unit unit tt) plain_node None false in
  let c := (onMount no_scaling c0 empty_world).1 in
  let w := exec (onMount no_scaling c0) empty_world in
  let w' := exec (step no_scaling origin_of identity_of c Destroyed) w in
  collider c = Some 0
  /\ destroyed c = false
  /\ calls w' = calls w ++ [Call_removeColliderFromContext 0;
                            Call_removeColliders [0];
                            Call_removeCollider 0 true]
  /\ (0 ∉ context_colliders w')
  /\ (0 ∉ collisionGroups_colliders w')
  /\ world_colliders w' !! 0 = None
  /\ forall es : list Event,
       List.filter is_removal
         (emitted (run no_scaling origin_of identity_of (Destroyed :: es) c)
            w)
       = [Call_removeColliderFromContext 0; Call_removeColliders [0];
          Call_removeCollider 0 true].
Proof.
  intros c0 c w w'. split; [reflexivity|]. split; [reflexivity|].
  apply (C7_unmount_removes_once no_scaling origin_of identity_of c w 0);
    reflexivity.
Defined.

Lemma C8_threshold_final_value_witness :
  let c := set_collider
             (Component_new (threshold_props tt (Q2Qc 5)) plain_node None
                false) 0 in
  let w := world_with (Rapier.ColliderState_new None) in
  collider c = Some 0
  /\ contactForceEventThreshold (props c) = Some (Q2Qc 5)
  /\ world_colliders w !! 0 = Some (Rapier.ColliderState_new None)
  /\ List.filter is_threshold_setter
       (emitted (reactive_block origin_of identity_of c) w)
     = [Call_setContactForceEventThreshold 0 1%Qc;
        Call_setContactForceEventThreshold 0 (Q2Qc 5)]
  /\ exists s' : Rapier.ColliderState,
       world_colliders (exec (reactive_block origin_of identity_of c) w) !! 0
       = Some s'
       /\ Rapier.contactForceEventThreshold (Rapier.material s')
          = Some (Q2Qc 5).
Proof.
  intros c w. do 3 (split; [reflexivity|]).
  destruct (C8_threshold_final_value origin_of identity_of c w 0 eq_refl)
    as [Hset _].
  destruct (Hset (Q2Qc 5) eq_refl) as [Hcalls Hstate].
  split; [exact Hcalls|].
  exact (Hstate (Rapier.ColliderState_new None) eq_refl).
Defined.

Lemma C10_no_flagged_ancestor_witness :
  let c := Component_new (@bare_props unit unit unit tt) plain_node
             (Some parent_body) false in
  isAttached c = true
  /\ Forall (fun a => userData_isRigidBody a = false) (ancestors (object c))
  /\ traverseAncestors (object c) captureRigidBody
       (Vector3_new, Quaternion_new)
     = (Vector3_new, Quaternion_new)
  /\ List.filter is_pose_setter (emitted (onMount no_scaling c) empty_world)
     = [Call_setTranslationWrtParent
          (fresh (dom (world_colliders (@empty_world unit))))
          (Object3D_getWorldPosition (object c));
        Call_setRotationWrtParent
          (fresh (dom (world_colliders (@empty_world unit))))
          (Object3D_getWorldQuaternion (object c))].
Proof.
  intros c. split; [reflexivity|].
  split; [repeat constructor|].
  apply (C10_no_flagged_ancestor no_scaling c empty_world);
    [reflexivity|repeat constructor].
Defined.

Lemma X2_onMount_unattached_pose_witness :
  let c := Component_new (@bare_props unit unit unit tt) plain_node None
             false in
  let h := fresh (dom (world_colliders (@empty_world unit))) in
  isAttached c = false
  /\ List.filter is_pose_setter (emitted (onMount no_scaling c) empty_world)
     = [Call_setTranslation h (Object3D_getWorldPosition (object c));
        Call_setRotation h (Object3D_getWorldQuaternion (object c))]
  /\ exists s : Rapier.ColliderState,
       world_colliders (exec (onMount no_scaling c) empty_world) !! h = Some s
       /\ Rapier.pose s
          = Rapier.mkPose (Some (Object3D_getWorldPosition (object c)))
              (Some (Object3D_getWorldQuaternion (object c))) None None.
Proof.
  intros c h. split; [reflexivity|].
  apply (X2_onMount_unattached_pose no_scaling c empty_world). reflexivity.
Defined.

Lemma X3_mount_unmount_round_trip_witness :
  let c := Component_new (@bare_props unit unit unit tt) plain_node None
             false in
  let w := @empty_world unit in
  let w2 := exec (onDestroy (onMount no_scaling c w).1)
              (exec (onMount no_scaling c) w) in
  (fresh (dom (world_colliders w)) ∉ context_colliders w)
  /\ (fresh (dom (world_colliders w)) ∉ collisionGroups_colliders w)
  /\ world_colliders w2 = world_colliders w
  /\ context_colliders w2 = context_colliders w
  /\ collisionGroups_colliders w2 = collisionGroups_colliders w.
Proof.
  intros c w w2. split; [apply not_elem_of_empty|].
  split; [apply not_elem_of_empty|].
  apply (X3_mount_unmount_round_trip no_scaling c w);
    apply not_elem_of_empty.
Defined.

Lemma X6_unset_mass_is_not_reset_witness :
  let c := set_collider
             (Component_new (with_density (bare_props tt) (Some 0%Qc))
                plain_node None false) 0 in
  let w := world_with dense_state in
  collider c = Some 0
  /\ world_colliders w !! 0 = Some dense_state
  /\ (density (props c) = None \/ density (props c) = Some 0%Qc)
  /\ (mass (props c) = None \/ mass (props c) = Some 0%Qc)
  /\ massProperties (props c) = None
  /\ List.filter is_mass_setter
       (emitted (reactive_block origin_of identity_of c) w) = []
  /\ exists s' : Rapier.ColliderState,
       world_colliders (exec (reactive_block origin_of identity_of c) w) !! 0
       = Some s'
       /\ Rapier.massConfig s' = Some (Rapier.ByDensity (Q2Qc 2.5)).
Proof.
  intros c w. split; [reflexivity|]. split; [reflexivity|].
  split; [right; reflexivity|]. split; [left; reflexivity|].
  split; [reflexivity|].
  apply (X6_unset_mass_is_not_reset origin_of identity_of c w 0 dense_state);
    [reflexivity|reflexivity|right; reflexivity|left; reflexivity
    |reflexivity].
Defined.

Lemma X7_last_mass_setter_wins_witness :
  let mp := mkMassProperties (Q2Qc 4) tt tt tt in
  let c := set_collider
             (Component_new (all_mass_props tt (Q2Qc 2.5) (Q2Qc 3) mp)
                plain_node None false) 0 in
  let w := world_with dense_state in
  collider c = Some 0
  /\ world_colliders w !! 0 = Some dense_state
  /\ density (props c) = Some (Q2Qc 2.5) /\ truthy (Q2Qc 2.5) = true
  /\ mass (props c) = Some (Q2Qc 3) /\ truthy (Q2Qc 3) = true
  /\ massProperties (props c) = Some mp
  /\ List.filter is_mass_setter
       (emitted (reactive_block origin_of identity_of c) w)
     = [Call_setDensity 0 (Q2Qc 2.5); Call_setMass 0 (Q2Qc 3);
        Call_setMassProperties 0 (Q2Qc 4) Vector3_new Vector3_new
          Quaternion_new]
  /\ exists s' : Rapier.ColliderState,
       world_colliders (exec (reactive_block origin_of identity_of c) w) !! 0
       = Some s'
       /\ Rapier.massConfig s'
          = Some (Rapier.ByMassProperties (Q2Qc 4) Vector3_new Vector3_new
                    Quaternion_new).
Proof.
  intros mp c w. do 7 (split; [reflexivity|]).
  apply (proj2 (X7_last_mass_setter_wins origin_of identity_of c w 0
                  dense_state (Q2Qc 2.5) (Q2Qc 3) eq_refl eq_refl eq_refl
                  eq_refl eq_refl eq_refl) mp eq_refl).
Defined.

Lemma X8_material_from_properties_only_witness :
  let c := set_collider
             (Component_new (threshold_props tt (Q2Qc 5)) plain_node None
                false) 0 in
  let w1 := world_with (Rapier.ColliderState_new None) in
  let w2 := world_with dense_state in
  collider c = Some 0
  /\ world_colliders w1 !! 0 = Some (Rapier.ColliderState_new None)
  /\ world_colliders w2 !! 0 = Some dense_state
  /\ exists t1 t2 : Rapier.ColliderState,
       world_colliders (exec (reactive_block origin_of identity_of c) w1) !! 0
       = Some t1
       /\ world_colliders (exec (reactive_block origin_of identity_of c) w2)
          !! 0 = Some t2
       /\ Rapier.activeCollisionTypes (Rapier.material t1)
          = Rapier.activeCollisionTypes (Rapier.material t2)
       /\ Rapier.restitution (Rapier.material t1)
          = Rapier.restitution (Rapier.material t2)
       /\ Rapier.restitutionCombineRule (Rapier.material t1)
          = Rapier.restitutionCombineRule (Rapier.material t2)
       /\ Rapier.friction (Rapier.material t1)
          = Rapier.friction (Rapier.material t2)
       /\ Rapier.frictionCombineRule (Rapier.material t1)
          = Rapier.frictionCombineRule (Rapier.material t2)
       /\ Rapier.sensor (Rapier.material t1)
          = Rapier.sensor (Rapier.material t2)
       /\ Rapier.contactForceEventThreshold (Rapier.material t1)
          = Rapier.contactForceEventThreshold (Rapier.material t2).
Proof.
  intros c w1 w2. do 3 (split; [reflexivity|]).
  apply (X8_material_from_properties_only origin_of identity_of c w1 w2 0
           (Rapier.ColliderState_new None) dense_state); reflexivity.
Defined.

Lemma X9_frame_callback_only_moves_own_collider_witness :
  let c := set_collider
             (Component_new (@bare_props unit unit unit tt) plain_node None
                false) 0 in
  let w := @two_collider_world unit in
  let w' := exec (useFrame_callback c) w in
  collider c = Some 0
  /\ world_colliders w !! 0 = Some (Rapier.ColliderState_new None)
  /\ world_colliders w' !! 0
     = Some (Rapier.mkColliderState None
               (Rapier.mkPose (Some (getWorldPosition plain_node))
                  (Some (getWorldQuaternion plain_node)) None None)
               (Rapier.mkMaterial None None None None None None None None)
               None)
  /\ (forall k : Collider,
        k <> 0 -> world_colliders w' !! k = world_colliders w !! k)
  /\ dom (world_colliders w') = dom (world_colliders w)
  /\ context_colliders w' = context_colliders w
  /\ collisionGroups_colliders w' = collisionGroups_colliders w.
Proof.
  intros c w w'. split; [reflexivity|]. split; [reflexivity|].
  apply (X9_frame_callback_only_moves_own_collider c w 0
           (Rapier.ColliderState_new None)); reflexivity.
Defined.

Lemma X10_relative_pose_uses_last_flagged_ancestor_witness :
  let c := Component_new (@bare_props unit unit unit tt) nested_node
             (Some parent_body) false in
  let h := fresh (dom (world_colliders (@empty_world unit))) in
  isAttached c = true
  /\ last (flaggedAncestors (object c)) = Some outer_body
  /\ List.filter is_pose_setter (emitted (onMount no_scaling c) empty_world)
     = [Call_setTranslationWrtParent h
          (poseRelativeTo (object c) outer_body).1;
        Call_setRotationWrtParent h
          (poseRelativeTo (object c) outer_body).2].
Proof.
  intros c h. split; [reflexivity|]. split; [reflexivity|].
  apply (X10_relative_pose_uses_last_flagged_ancestor no_scaling c
           empty_world outer_body); reflexivity.
Defined.



Lemma X14_other_colliders_untouched_witness :
  let c := set_collider
             (Component_new (bare_props tt) plain_node None false) 0 in
  let w := two_collider_world in
  let es := [Invalidated (bare_props tt); Frame; Mounted; Frame;
             Destroyed] in
  is_Some (world_colliders w !! 1)
  /\ collider c <> Some 1
  /\ untouched w (exec (run no_scaling origin_of identity_of es c) w) 1.
Proof.
  intros c w es. split; [exists dense_state; reflexivity|].
  split; [discriminate|].
  apply (X14_other_colliders_untouched no_scaling origin_of identity_of c es
           w 1); [exists dense_state; reflexivity|discriminate].
Defined.

Lemma X15_live_collider_is_registered_witness :
  let m := run no_scaling origin_of identity_of [Mounted; Frame]
             (Component_new (bare_props tt) plain_node None false) in
  collider (m empty_world).1 = Some 0
  /\ destroyed (m empty_world).1 = false
  /\ is_Some (world_colliders (exec m empty_world) !! 0)
  /\ (0 ∈ context_colliders (exec m empty_world))
  /\ (0 ∈ collisionGroups_colliders (exec m empty_world)).
Proof.
  intros m. split; [reflexivity|]. split; [reflexivity|].
  apply (X15_live_collider_is_registered no_scaling origin_of identity_of
           (bare_props tt) plain_node None false [Mounted; Frame]
           empty_world 0); reflexivity.
Defined.

Lemma X16_removed_collider_stays_removed_witness :
  let c0 :=
    Component_new (@bare_props unit unit unit tt) plain_node None false in
  let c := (step no_scaling origin_of identity_of c0 Mounted empty_world).1 in
  let w := exec (step no_scaling origin_of identity_of c0 Mounted)
             empty_world in
  let w' := exec (run no_scaling origin_of identity_of
                    (Destroyed :: [Frame; Mounted]) c) w in
  collider c = Some 0
  /\ mounted c = true
  /\ destroyed c = false
  /\ world_colliders w' !! 0 = None
  /\ (0 ∉ context_colliders w')
  /\ (0 ∉ collisionGroups_colliders w').
Proof.
  intros c0 c w w'. repeat (split; [reflexivity|]).
  apply (X16_removed_collider_stays_removed no_scaling origin_of identity_of
           c w 0 [Frame; Mounted]); reflexivity.
Defined.
